(** * ISRA: synthetic municipal accounts for Israeli communes

    A shallow embedding of [Isra.py], class [IsraelCommuneFinanceAnalyzer]:
    the static profile table, the per-metric simulators, the table
    construction and the historical overlay [_add_israeli_trends].

    Conventions of the embedding.
    - Python numbers are exact rationals [Q]: every decimal literal of the
      source is the rational it denotes, [*], [+], [-] and [/] are the
      rational operations.  Rounding of binary floating point is not
      modelled; results about values are stated up to [==].
    - A Python [dict] is a [gmap]; a [list] is a [list]; a pandas
      [DataFrame] is its number of rows (a [RangeIndex]) with a map from
      column label to column.
    - [np.random.normal] reads and advances NumPy's global generator.  The
      generator state is threaded explicitly: a simulator takes the state
      and returns the new one with its column.
    - A raised exception ([KeyError], [ValueError]) is [None]. *)

From Stdlib Require Import QArith Lqa.
From stdpp Require Import gmap strings list fin_maps.

Local Open Scope Q_scope.

(** ** The profile table *)

(** One value of the [configs] dictionary. *)
Record Config := mkConfig {
  population_base : Z;
  budget_base : Z;
  type : string;
  specialites : list string
}.

(** The dictionary literal of [_get_commune_config], in source order. *)
Definition configs : gmap string Config :=
  list_to_map [
    ("Jérusalem",
      mkConfig 950000 8500 "capitale"
        ["tourisme"; "administration"; "education"; "culture"; "religion"]);
    ("Tel Aviv-Jaffa",
      mkConfig 460000 12000 "metropolitaine"
        ["finance"; "technologie"; "commerce"; "tourisme"; "culture"]);
    ("Haïfa",
      mkConfig 285000 4800 "portuaire"
        ["port"; "industrie"; "technologie"; "education"; "tourisme"]);
    ("Beer-Sheva",
      mkConfig 220000 3200 "regionale"
        ["desert"; "technologie"; "sante"; "education"; "cybersecurite"]);
    ("Netanya",
      mkConfig 220000 2800 "cotiere"
        ["tourisme"; "immobilier"; "commerce"; "diamants"]);
    ("Ashdod",
      mkConfig 225000 3500 "portuaire"
        ["port"; "industrie"; "commerce"; "logistique"]);
    ("Rishon LeZion",
      mkConfig 255000 3800 "banlieue"
        ["vin"; "commerce"; "education"; "services"]);
    ("Petah Tikva",
      mkConfig 250000 3600 "industrielle"
        ["industrie"; "sante"; "technologie"; "agriculture"]);
    ("Eilat",
      mkConfig 52000 1800 "touristique"
        ["tourisme"; "plongee"; "commerce_libre"; "loisirs"]);
    ("Tiberiade",
      mkConfig 44000 850 "touristique"
        ["lac"; "tourisme_religieux"; "thermal"; "histoire"]);
    ("Nahariya",
      mkConfig 58000 950 "cotiere"
        ["tourisme"; "agriculture"; "commerce_frontalier"]);
    ("Safed",
      mkConfig 37000 680 "religieuse"
        ["kabbalah"; "art"; "tourisme_religieux"; "histoire"]);
    ("default",
      mkConfig 50000 800 "locale"
        ["commerce_local"; "services"; "education"; "sante"])
  ].

(** [configs.get(self.commune, configs["default"])].  The subscript
    [configs["default"]] is evaluated first and raises [KeyError] on a
    missing key; [dict.get] then falls back to it. *)
Definition _get_commune_config (commune : string) : option Config :=
  d ← configs !! "default";
  Some (default d (configs !! commune)).

(** The attributes set by [__init__] that the generator reads ([colors] is
    only read by the plotting code). *)
Record Analyzer := mkAnalyzer {
  commune : string;
  start_year : Z;
  end_year : Z;
  eur_to_ils : Q;
  config : Config
}.

(** [IsraelCommuneFinanceAnalyzer(commune_name)]. *)
Definition __init__ (commune_name : string) : option Analyzer :=
  cfg ← _get_commune_config commune_name;
  Some (mkAnalyzer commune_name 2002 2025 4.0 cfg).

Definition _convert_to_shekels (self : Analyzer) (amount_eur : Q) : Q :=
  amount_eur * eur_to_ils self.

(** ** Dates *)

(** A pandas [Timestamp], as far as the program looks at it. *)
Record Timestamp := mkTimestamp { year : Z; month : Z; day : Z }.

(** [pd.date_range(start=f'{start_year}-01-01', end=f'{end_year}-12-31',
    freq='Y')]: the year ends that lie between the first of January of
    [start_year] and the last of December of [end_year]. *)
Definition date_range_Y (start_year end_year : Z) : list Timestamp :=
  (λ y, mkTimestamp y 12 31) <$> seqZ start_year (end_year - start_year + 1).

(** ** The random source *)

(** [normal loc scale] is [np.random.normal(loc, scale)] on the generator
    state [G]: it returns the sample and the advanced state. *)
Class NormalSource (G : Type) := normal : Q → Q → G → Q * G.

(** A generator that replays a tape of standard normal samples: the draw
    is [loc + scale * z], and [loc] itself once the tape is used up. *)
#[export] Instance tape_source : NormalSource (list Q) := λ loc scale g,
  match g with
  | [] => (loc, [])
  | z :: g' => (loc + scale * z, g')
  end.

(** A generator whose samples are all equal to [loc]. *)
#[export] Instance mean_source : NormalSource unit := λ loc _ g, (loc, g).

(** ** Loops *)

(** [out = []; for i, x in enumerate(xs): ...; out.append(v)] with a body
    that may draw from the generator; [i] is the index of the head. *)
Fixpoint for_enumerate {G A B : Type} (body : nat → A → G → B * G)
    (i : nat) (xs : list A) (g : G) : list B * G :=
  match xs with
  | [] => ([], g)
  | x :: xs' =>
      let '(v, g1) := body i x g in
      let '(vs, g2) := for_enumerate body (S i) xs' g1 in
      (v :: vs, g2)
  end.

(** The integer loop index [i] as a number. *)
Definition idx (i : nat) : Q := inject_Z (Z.of_nat i).

(** [year in [y1, y2, ...]] *)
Definition year_in (y : Z) (ys : list Z) : bool := bool_decide (y ∈ ys).

(** [tag in self.config["specialites"]] *)
Definition has_specialite (self : Analyzer) (tag : string) : bool :=
  bool_decide (tag ∈ specialites (config self)).

(** [self.config["type"] == t] *)
Definition type_is (self : Analyzer) (t : string) : bool :=
  bool_decide (type (config self) = t).

(** The profile every unknown name falls back to: the value of the key
    "default" in [configs]. *)
Definition default_config : Config :=
  mkConfig 50000 800 "locale"
    ["commerce_local"; "services"; "education"; "sante"].

(** ** The metric simulators

    Each [_simulate_*] method builds one column, a value per date.  The
    rates and multipliers the source chooses by [if] chains inside the
    method are named here and used by the method below them. *)

(** The [growth_rate] chain of [_simulate_population]. *)
Definition population_growth_rate (self : Analyzer) : Q :=
  if type_is self "capitale" then 0.018
  else if type_is self "metropolitaine" then 0.022
  else if type_is self "touristique" then 0.025
  else 0.020.

Definition _simulate_population (self : Analyzer) (dates : list Timestamp)
    : list Q :=
  let base_population := inject_Z (population_base (config self)) in
  imap (λ i date,
    let growth_rate := population_growth_rate self in
    let growth := 1 + growth_rate * idx i in
    base_population * growth) dates.

Definition _simulate_households (self : Analyzer) (dates : list Timestamp)
    : list Q :=
  let base_households := inject_Z (population_base (config self)) / 3.0 in
  imap (λ i date,
    let growth := 1 + 0.018 * idx i in
    base_households * growth) dates.

(** The [growth_rate] chain of [_simulate_total_revenue]. *)
Definition total_revenue_growth_rate (self : Analyzer) : Q :=
  if type_is self "metropolitaine" then 0.038
  else if type_is self "technologie" then 0.042
  else 0.035.

(** The specialty multipliers of the sector investments. *)
Definition technology_multiplier (self : Analyzer) : Q :=
  if has_specialite self "technologie" then 1.8 else 0.7.

Definition tourism_multiplier (self : Analyzer) : Q :=
  if has_specialite self "tourisme" then 1.7 else 0.8.

Definition transport_multiplier (self : Analyzer) : Q :=
  if has_specialite self "transport" then 1.4 else 1.0.

Definition education_multiplier (self : Analyzer) : Q :=
  if has_specialite self "education" then 1.5 else 1.0.

Definition security_multiplier (self : Analyzer) : Q :=
  if has_specialite self "frontaliere"
     || bool_decide (type (config self) ∈ ["capitale"; "metropolitaine"])
  then 1.6 else 1.0.

Definition environment_multiplier (self : Analyzer) : Q :=
  if has_specialite self "environnement" then 1.4 else 0.9.

Definition culture_multiplier (self : Analyzer) : Q :=
  if has_specialite self "culture" then 1.7 else 0.8.

Section Simulators.
Context {G : Type} `{!NormalSource G}.

Definition _simulate_total_revenue (self : Analyzer)
    (dates : list Timestamp) (g : G) : list Q * G :=
  let base_revenue :=
    _convert_to_shekels self (inject_Z (budget_base (config self))) in
  for_enumerate (λ i date g,
    let growth_rate := total_revenue_growth_rate self in
    let growth := 1 + growth_rate * idx i in
    let '(noise, g) := normal 1 0.07 g in
    (base_revenue * growth * noise, g)) 0 dates g.

Definition _simulate_tax_revenue (self : Analyzer)
    (dates : list Timestamp) (g : G) : list Q * G :=
  let base_tax :=
    _convert_to_shekels self (inject_Z (budget_base (config self)) * 0.40) in
  for_enumerate (λ i date g,
    let growth := 1 + 0.032 * idx i in
    let '(noise, g) := normal 1 0.08 g in
    (base_tax * growth * noise, g)) 0 dates g.

Definition _simulate_government_grants (self : Analyzer)
    (dates : list Timestamp) (g : G) : list Q * G :=
  let base_grants :=
    _convert_to_shekels self (inject_Z (budget_base (config self)) * 0.35) in
  for_enumerate (λ i date g,
    let year := year date in
    let increase :=
      if bool_decide (2010 ≤ year)%Z
      then 1 + 0.008 * inject_Z (year - 2010)
      else 1 in
    let '(noise, g) := normal 1 0.05 g in
    (base_grants * increase * noise, g)) 0 dates g.

Definition _simulate_other_revenue (self : Analyzer)
    (dates : list Timestamp) (g : G) : list Q * G :=
  let base_other :=
    _convert_to_shekels self (inject_Z (budget_base (config self)) * 0.25) in
  for_enumerate (λ i date g,
    let growth := 1 + 0.028 * idx i in
    let '(noise, g) := normal 1 0.09 g in
    (base_other * growth * noise, g)) 0 dates g.

Definition _simulate_total_expenses (self : Analyzer)
    (dates : list Timestamp) (g : G) : list Q * G :=
  let base_expenses :=
    _convert_to_shekels self (inject_Z (budget_base (config self)) * 0.96) in
  for_enumerate (λ i date g,
    let growth := 1 + 0.034 * idx i in
    let '(noise, g) := normal 1 0.06 g in
    (base_expenses * growth * noise, g)) 0 dates g.

Definition _simulate_operating_expenses (self : Analyzer)
    (dates : list Timestamp) (g : G) : list Q * G :=
  let base_operating :=
    _convert_to_shekels self (inject_Z (budget_base (config self)) * 0.60) in
  for_enumerate (λ i date g,
    let growth := 1 + 0.030 * idx i in
    let '(noise, g) := normal 1 0.05 g in
    (base_operating * growth * noise, g)) 0 dates g.

Definition _simulate_investment_expenses (self : Analyzer)
    (dates : list Timestamp) (g : G) : list Q * G :=
  let base_investment :=
    _convert_to_shekels self (inject_Z (budget_base (config self)) * 0.36) in
  for_enumerate (λ i date g,
    let year := year date in
    let multiplier :=
      if year_in year [2006; 2012; 2018; 2023]%Z then 1.6
      else if year_in year [2008; 2014; 2020]%Z then 0.8
      else 1.0 in
    let growth := 1 + 0.028 * idx i in
    let '(noise, g) := normal 1 0.15 g in
    (base_investment * growth * multiplier * noise, g)) 0 dates g.

Definition _simulate_debt_charges (self : Analyzer)
    (dates : list Timestamp) (g : G) : list Q * G :=
  let base_debt_charge :=
    _convert_to_shekels self (inject_Z (budget_base (config self)) * 0.06) in
  for_enumerate (λ i date g,
    let year := year date in
    let increase :=
      if bool_decide (2005 ≤ year)%Z
      then 1 + 0.008 * inject_Z (year - 2005)
      else 1 in
    let '(noise, g) := normal 1 0.09 g in
    (base_debt_charge * increase * noise, g)) 0 dates g.

Definition _simulate_staff_costs (self : Analyzer)
    (dates : list Timestamp) (g : G) : list Q * G :=
  let base_staff :=
    _convert_to_shekels self (inject_Z (budget_base (config self)) * 0.42) in
  for_enumerate (λ i date g,
    let growth := 1 + 0.031 * idx i in
    let '(noise, g) := normal 1 0.04 g in
    (base_staff * growth * noise, g)) 0 dates g.

Definition _simulate_gross_savings (self : Analyzer)
    (dates : list Timestamp) (g : G) : list Q * G :=
  for_enumerate (λ i date g,
    let base_saving :=
      _convert_to_shekels self
        (inject_Z (budget_base (config self)) * 0.04) in
    let year := year date in
    let improvement :=
      if bool_decide (2010 ≤ year)%Z
      then 1 + 0.010 * inject_Z (year - 2010)
      else 1 in
    let '(noise, g) := normal 1 0.12 g in
    (base_saving * improvement * noise, g)) 0 dates g.

Definition _simulate_total_debt (self : Analyzer)
    (dates : list Timestamp) (g : G) : list Q * G :=
  let base_debt :=
    _convert_to_shekels self (inject_Z (budget_base (config self)) * 0.75) in
  for_enumerate (λ i date g,
    let year := year date in
    let change :=
      if year_in year [2006; 2012; 2018; 2023]%Z then 1.20
      else if year_in year [2008; 2014; 2020]%Z then 0.88
      else 1.0 in
    let '(noise, g) := normal 1 0.08 g in
    (base_debt * change * noise, g)) 0 dates g.

Definition _simulate_debt_ratio (self : Analyzer)
    (dates : list Timestamp) (g : G) : list Q * G :=
  for_enumerate (λ i date g,
    let base_ratio := 0.65 in
    let year := year date in
    let improvement :=
      if bool_decide (2010 ≤ year)%Z
      then 1 - 0.012 * inject_Z (year - 2010)
      else 1 in
    let '(noise, g) := normal 1 0.06 g in
    (base_ratio * improvement * noise, g)) 0 dates g.

Definition _simulate_tax_rate (self : Analyzer)
    (dates : list Timestamp) (g : G) : list Q * G :=
  for_enumerate (λ i date g,
    let base_rate := 0.92 in
    let year := year date in
    let increase :=
      if bool_decide (2010 ≤ year)%Z
      then 1 + 0.006 * inject_Z (year - 2010)
      else 1 in
    let '(noise, g) := normal 1 0.03 g in
    (base_rate * increase * noise, g)) 0 dates g.

Definition _simulate_technology_investment (self : Analyzer)
    (dates : list Timestamp) (g : G) : list Q * G :=
  let base_investment :=
    _convert_to_shekels self (inject_Z (budget_base (config self)) * 0.08) in
  let multiplier := technology_multiplier self in
  for_enumerate (λ i date g,
    let year := year date in
    let year_multiplier :=
      if year_in year [2005; 2010; 2015; 2020]%Z then 2.2 else 1.0 in
    let growth := 1 + 0.045 * idx i in
    let '(noise, g) := normal 1 0.18 g in
    (base_investment * growth * year_multiplier * multiplier * noise, g))
    0 dates g.

Definition _simulate_tourism_investment (self : Analyzer)
    (dates : list Timestamp) (g : G) : list Q * G :=
  let base_investment :=
    _convert_to_shekels self (inject_Z (budget_base (config self)) * 0.06) in
  let multiplier := tourism_multiplier self in
  for_enumerate (λ i date g,
    let year := year date in
    let year_multiplier :=
      if year_in year [2007; 2013; 2019; 2024]%Z then 1.8 else 1.0 in
    let growth := 1 + 0.035 * idx i in
    let '(noise, g) := normal 1 0.16 g in
    (base_investment * growth * year_multiplier * multiplier * noise, g))
    0 dates g.

Definition _simulate_transport_investment (self : Analyzer)
    (dates : list Timestamp) (g : G) : list Q * G :=
  let base_investment :=
    _convert_to_shekels self (inject_Z (budget_base (config self)) * 0.05) in
  let multiplier := transport_multiplier self in
  for_enumerate (λ i date g,
    let year := year date in
    let year_multiplier :=
      if year_in year [2006; 2012; 2018; 2023]%Z then 1.7 else 1.0 in
    let growth := 1 + 0.032 * idx i in
    let '(noise, g) := normal 1 0.15 g in
    (base_investment * growth * year_multiplier * multiplier * noise, g))
    0 dates g.

Definition _simulate_education_investment (self : Analyzer)
    (dates : list Timestamp) (g : G) : list Q * G :=
  let base_investment :=
    _convert_to_shekels self (inject_Z (budget_base (config self)) * 0.07) in
  let multiplier := education_multiplier self in
  for_enumerate (λ i date g,
    let year := year date in
    let year_multiplier :=
      if year_in year [2008; 2014; 2020]%Z then 1.6 else 1.0 in
    let growth := 1 + 0.030 * idx i in
    let '(noise, g) := normal 1 0.14 g in
    (base_investment * growth * year_multiplier * multiplier * noise, g))
    0 dates g.

Definition _simulate_security_investment (self : Analyzer)
    (dates : list Timestamp) (g : G) : list Q * G :=
  let base_investment :=
    _convert_to_shekels self (inject_Z (budget_base (config self)) * 0.04) in
  let multiplier := security_multiplier self in
  for_enumerate (λ i date g,
    let year := year date in
    let year_multiplier :=
      if year_in year [2002; 2006; 2009; 2014; 2021]%Z then 2.0 else 1.0 in
    let growth := 1 + 0.025 * idx i in
    let '(noise, g) := normal 1 0.20 g in
    (base_investment * growth * year_multiplier * multiplier * noise, g))
    0 dates g.

Definition _simulate_environment_investment (self : Analyzer)
    (dates : list Timestamp) (g : G) : list Q * G :=
  let base_investment :=
    _convert_to_shekels self (inject_Z (budget_base (config self)) * 0.03) in
  let multiplier := environment_multiplier self in
  for_enumerate (λ i date g,
    let year := year date in
    let year_multiplier :=
      if year_in year [2009; 2015; 2021]%Z then 1.8 else 1.0 in
    let growth := 1 + 0.028 * idx i in
    let '(noise, g) := normal 1 0.16 g in
    (base_investment * growth * year_multiplier * multiplier * noise, g))
    0 dates g.

Definition _simulate_culture_investment (self : Analyzer)
    (dates : list Timestamp) (g : G) : list Q * G :=
  let base_investment :=
    _convert_to_shekels self (inject_Z (budget_base (config self)) * 0.02) in
  let multiplier := culture_multiplier self in
  for_enumerate (λ i date g,
    let year := year date in
    let year_multiplier :=
      if year_in year [2010; 2016; 2022]%Z then 1.9 else 1.0 in
    let growth := 1 + 0.025 * idx i in
    let '(noise, g) := normal 1 0.15 g in
    (base_investment * growth * year_multiplier * multiplier * noise, g))
    0 dates g.

End Simulators.

(** ** Data frames *)

(** A [DataFrame] with the default [RangeIndex]: the row labels are
    [0 .. nrows - 1] and every column holds one value per row. *)
Record DataFrame := mkDataFrame {
  nrows : nat;
  columns : gmap string (list Q)
}.

(** [pd.DataFrame(data)] for a dictionary of lists: the lists must all have
    one length, which becomes the number of rows ([ValueError] otherwise). *)
Definition DataFrame_of_dict (data : gmap string (list Q))
    : option DataFrame :=
  let n := default 0%nat (head ((length ∘ snd) <$> map_to_list data)) in
  if bool_decide (map_Forall (λ _ c, length c = n) data)
  then Some (mkDataFrame n data)
  else None.

(** The value at row label [i] of column [col] ([df.loc[i, col]] as an
    expression); [None] for a label or a column that is absent. *)
Definition cell (df : DataFrame) (col : string) (i : nat) : option Q :=
  c ← columns df !! col; c !! i.

(** [df.loc[i, col] *= k]: read the cell, multiply, write it back. *)
Definition loc_mul (i : nat) (col : string) (k : Q) (df : DataFrame)
    : option DataFrame :=
  c ← columns df !! col;
  v ← c !! i;
  Some (mkDataFrame (nrows df) (<[col := <[i := v * k]> c]> (columns df))).

(** The row that [iterrows] yields: a lookup by column label. *)
Definition Series : Type := string → option Q.

(** [for i, row in df.iterrows(): body].  The rows are taken from the
    values the frame had when the iteration began ([snapshot]); the body
    updates the frame itself. *)
Fixpoint iterrows (body : nat → Series → DataFrame → option DataFrame)
    (snapshot : DataFrame) (labels : list nat) (df : DataFrame)
    : option DataFrame :=
  match labels with
  | [] => Some df
  | i :: labels' =>
      df' ← body i (λ col, cell snapshot col i) df;
      iterrows body snapshot labels' df'
  end.

(** ** The historical overlay *)

(** [lo <= year <= hi] *)
Definition between (lo year hi : Q) : bool :=
  Qle_bool lo year && Qle_bool year hi.

(** The body of the loop of [_add_israeli_trends] once [year] is read. *)
Definition trends_of_year (i : nat) (year : Q) (df : DataFrame)
    : option DataFrame :=
  (* Seconde Intifada (2000-2005) *)
  df ← (if between 2002 year 2005 then
          df ← loc_mul i "Investissement_Tourisme" 0.7 df;
          loc_mul i "Recettes_Totales" 0.95 df
        else Some df);
  (* Boom technologique (2006-2008) *)
  df ← (if between 2006 year 2008 then
          df ← loc_mul i "Investissement_Technologie" 1.6 df;
          loc_mul i "Recettes_Totales" 1.08 df
        else Some df);
  (* Crise financiere mondiale (2008-2009), elif croissance (2010-2019) *)
  df ← (if between 2008 year 2009 then
          df ← loc_mul i "Recettes_Totales" 0.92 df;
          loc_mul i "Investissement" 0.78 df
        else if between 2010 year 2019 then
          df ← loc_mul i "Investissement_Technologie" 1.2 df;
          loc_mul i "Subventions_Gouvernement" 1.05 df
        else Some df);
  (* Operations militaires (2014) *)
  df ← (if Qeq_bool year 2014 then
          df ← loc_mul i "Investissement_Securite" 2.5 df;
          loc_mul i "Depenses_Totales" 1.08 df
        else Some df);
  (* COVID-19 (2020-2021) *)
  df ← (if between 2020 year 2021 then
          if Qeq_bool year 2020 then
            df ← loc_mul i "Recettes_Totales" 0.85 df;
            loc_mul i "Investissement_Tourisme" 0.6 df
          else
            loc_mul i "Subventions_Gouvernement" 1.15 df
        else Some df);
  (* Plan de relance post-COVID (2022-2025) *)
  if Qle_bool 2022 year then
    df ← loc_mul i "Investissement_Technologie" 1.25 df;
    df ← loc_mul i "Investissement_Transport" 1.15 df;
    loc_mul i "Investissement_Environnement" 1.20 df
  else Some df.

Definition trends_body (i : nat) (row : Series) (df : DataFrame)
    : option DataFrame :=
  year ← row "Annee";
  trends_of_year i year df.

Definition _add_israeli_trends (df : DataFrame) : option DataFrame :=
  iterrows trends_body df (seq 0 (nrows df)) df.

(** ** The generator *)

Section Generator.
Context {G : Type} `{!NormalSource G}.

(** The dictionary [data] of [generate_financial_data], filled in the
    order of the source, with the generator state after the last draw. *)
Definition financial_dict (self : Analyzer) (g : G)
    : gmap string (list Q) * G :=
  let dates := date_range_Y (start_year self) (end_year self) in
  let data : gmap string (list Q) :=
    {[ "Annee" := (λ date, inject_Z (year date)) <$> dates ]} in
  let data := <["Population" := _simulate_population self dates]> data in
  let data := <["Menages" := _simulate_households self dates]> data in
  let '(c, g) := _simulate_total_revenue self dates g in
  let data := <["Recettes_Totales" := c]> data in
  let '(c, g) := _simulate_tax_revenue self dates g in
  let data := <["Impots_Locaux" := c]> data in
  let '(c, g) := _simulate_government_grants self dates g in
  let data := <["Subventions_Gouvernement" := c]> data in
  let '(c, g) := _simulate_other_revenue self dates g in
  let data := <["Autres_Recettes" := c]> data in
  let '(c, g) := _simulate_total_expenses self dates g in
  let data := <["Depenses_Totales" := c]> data in
  let '(c, g) := _simulate_operating_expenses self dates g in
  let data := <["Fonctionnement" := c]> data in
  let '(c, g) := _simulate_investment_expenses self dates g in
  let data := <["Investissement" := c]> data in
  let '(c, g) := _simulate_debt_charges self dates g in
  let data := <["Charge_Dette" := c]> data in
  let '(c, g) := _simulate_staff_costs self dates g in
  let data := <["Personnel" := c]> data in
  let '(c, g) := _simulate_gross_savings self dates g in
  let data := <["Epargne_Brute" := c]> data in
  let '(c, g) := _simulate_total_debt self dates g in
  let data := <["Dette_Totale" := c]> data in
  let '(c, g) := _simulate_debt_ratio self dates g in
  let data := <["Taux_Endettement" := c]> data in
  let '(c, g) := _simulate_tax_rate self dates g in
  let data := <["Taux_Fiscalite" := c]> data in
  let '(c, g) := _simulate_technology_investment self dates g in
  let data := <["Investissement_Technologie" := c]> data in
  let '(c, g) := _simulate_tourism_investment self dates g in
  let data := <["Investissement_Tourisme" := c]> data in
  let '(c, g) := _simulate_transport_investment self dates g in
  let data := <["Investissement_Transport" := c]> data in
  let '(c, g) := _simulate_education_investment self dates g in
  let data := <["Investissement_Education" := c]> data in
  let '(c, g) := _simulate_security_investment self dates g in
  let data := <["Investissement_Securite" := c]> data in
  let '(c, g) := _simulate_environment_investment self dates g in
  let data := <["Investissement_Environnement" := c]> data in
  let '(c, g) := _simulate_culture_investment self dates g in
  let data := <["Investissement_Culture" := c]> data in
  (data, g).

(** [generate_financial_data]: build [data], make the frame, apply the
    overlay to it and return it. *)
Definition generate_financial_data (self : Analyzer) (g : G)
    : option DataFrame * G :=
  let '(data, g) := financial_dict self g in
  (df ← DataFrame_of_dict data; _add_israeli_trends df, g).

End Generator.

(** A whole run of the program's core for a commune name. *)
Definition run {G : Type} `{!NormalSource G} (commune_name : string) (g : G)
    : option DataFrame * G :=
  match __init__ commune_name with
  | Some self => generate_financial_data self g
  | None => (None, g)
  end.

(** ** The metrics as a table

    The twenty-two simulated columns in the order [generate_financial_data]
    fills them, each with its label and its simulator.  [financial_dict]
    above is the source's straight-line code; the properties below relate
    it to a fold over this list. *)

Inductive Metric :=
  | Population | Menages
  | Recettes_Totales | Impots_Locaux | Subventions_Gouvernement
  | Autres_Recettes
  | Depenses_Totales | Fonctionnement | Investissement | Charge_Dette
  | Personnel
  | Epargne_Brute | Dette_Totale | Taux_Endettement | Taux_Fiscalite
  | Investissement_Technologie | Investissement_Tourisme
  | Investissement_Transport | Investissement_Education
  | Investissement_Securite | Investissement_Environnement
  | Investissement_Culture.

#[export] Instance Metric_eq_dec : EqDecision Metric.
Proof. solve_decision. Defined.

Definition metrics : list Metric :=
  [ Population; Menages;
    Recettes_Totales; Impots_Locaux; Subventions_Gouvernement;
    Autres_Recettes;
    Depenses_Totales; Fonctionnement; Investissement; Charge_Dette;
    Personnel;
    Epargne_Brute; Dette_Totale; Taux_Endettement; Taux_Fiscalite;
    Investissement_Technologie; Investissement_Tourisme;
    Investissement_Transport; Investissement_Education;
    Investissement_Securite; Investissement_Environnement;
    Investissement_Culture ].

(** The key under which a metric is stored in [data]. *)
Definition label (m : Metric) : string :=
  match m with
  | Population => "Population"
  | Menages => "Menages"
  | Recettes_Totales => "Recettes_Totales"
  | Impots_Locaux => "Impots_Locaux"
  | Subventions_Gouvernement => "Subventions_Gouvernement"
  | Autres_Recettes => "Autres_Recettes"
  | Depenses_Totales => "Depenses_Totales"
  | Fonctionnement => "Fonctionnement"
  | Investissement => "Investissement"
  | Charge_Dette => "Charge_Dette"
  | Personnel => "Personnel"
  | Epargne_Brute => "Epargne_Brute"
  | Dette_Totale => "Dette_Totale"
  | Taux_Endettement => "Taux_Endettement"
  | Taux_Fiscalite => "Taux_Fiscalite"
  | Investissement_Technologie => "Investissement_Technologie"
  | Investissement_Tourisme => "Investissement_Tourisme"
  | Investissement_Transport => "Investissement_Transport"
  | Investissement_Education => "Investissement_Education"
  | Investissement_Securite => "Investissement_Securite"
  | Investissement_Environnement => "Investissement_Environnement"
  | Investissement_Culture => "Investissement_Culture"
  end.

(** The labels of the table, the year first. *)
Definition column_labels : list string := "Annee" :: (label <$> metrics).

(** The method that fills the column of a metric.  The two demographic
    methods never call the generator and hand its state back unchanged. *)
Definition simulate {G : Type} `{!NormalSource G} (m : Metric)
    (self : Analyzer) (dates : list Timestamp) (g : G) : list Q * G :=
  match m with
  | Population => (_simulate_population self dates, g)
  | Menages => (_simulate_households self dates, g)
  | Recettes_Totales => _simulate_total_revenue self dates g
  | Impots_Locaux => _simulate_tax_revenue self dates g
  | Subventions_Gouvernement => _simulate_government_grants self dates g
  | Autres_Recettes => _simulate_other_revenue self dates g
  | Depenses_Totales => _simulate_total_expenses self dates g
  | Fonctionnement => _simulate_operating_expenses self dates g
  | Investissement => _simulate_investment_expenses self dates g
  | Charge_Dette => _simulate_debt_charges self dates g
  | Personnel => _simulate_staff_costs self dates g
  | Epargne_Brute => _simulate_gross_savings self dates g
  | Dette_Totale => _simulate_total_debt self dates g
  | Taux_Endettement => _simulate_debt_ratio self dates g
  | Taux_Fiscalite => _simulate_tax_rate self dates g
  | Investissement_Technologie =>
      _simulate_technology_investment self dates g
  | Investissement_Tourisme => _simulate_tourism_investment self dates g
  | Investissement_Transport => _simulate_transport_investment self dates g
  | Investissement_Education => _simulate_education_investment self dates g
  | Investissement_Securite => _simulate_security_investment self dates g
  | Investissement_Environnement =>
      _simulate_environment_investment self dates g
  | Investissement_Culture => _simulate_culture_investment self dates g
  end.

(** One step of filling [data]: simulate a metric and store its column. *)
Definition fill {G : Type} `{!NormalSource G} (self : Analyzer)
    (dates : list Timestamp) (acc : gmap string (list Q) * G) (m : Metric)
    : gmap string (list Q) * G :=
  let '(c, g) := simulate m self dates acc.2 in
  (<[label m := c]> acc.1, g).

(** The generator state on entry to the simulator of [m]: the state after
    the simulators of the metrics before it in [ms]. *)
Fixpoint state_before {G : Type} `{!NormalSource G} (self : Analyzer)
    (dates : list Timestamp) (ms : list Metric) (m : Metric) (g : G) : G :=
  match ms with
  | [] => g
  | m' :: ms' =>
      if decide (m' = m) then g
      else state_before self dates ms' m (simulate m' self dates g).2
  end.

(** ** The shape of a metric

    The parameters of the product
    [base * growth * event * specialty * noise], read off each simulator. *)

Inductive Growth :=
  | LinearInIndex (rate : Q)              (* 1 + rate * i *)
  | LinearFromYear (since : Z) (slope : Q) (* 1 + slope * (year - since)
                                              from [since] on, 1 before *)
  | NoGrowth.

Definition growth_factor (gr : Growth) (i : nat) (year : Z) : Q :=
  match gr with
  | LinearInIndex rate => 1 + rate * idx i
  | LinearFromYear since slope =>
      if bool_decide (since ≤ year)%Z
      then 1 + slope * inject_Z (year - since)
      else 1
  | NoGrowth => 1
  end.

Definition base (m : Metric) (self : Analyzer) : Q :=
  let budget := inject_Z (budget_base (config self)) in
  let population := inject_Z (population_base (config self)) in
  match m with
  | Population => population
  | Menages => population / 3.0
  | Recettes_Totales => _convert_to_shekels self budget
  | Impots_Locaux => _convert_to_shekels self (budget * 0.40)
  | Subventions_Gouvernement => _convert_to_shekels self (budget * 0.35)
  | Autres_Recettes => _convert_to_shekels self (budget * 0.25)
  | Depenses_Totales => _convert_to_shekels self (budget * 0.96)
  | Fonctionnement => _convert_to_shekels self (budget * 0.60)
  | Investissement => _convert_to_shekels self (budget * 0.36)
  | Charge_Dette => _convert_to_shekels self (budget * 0.06)
  | Personnel => _convert_to_shekels self (budget * 0.42)
  | Epargne_Brute => _convert_to_shekels self (budget * 0.04)
  | Dette_Totale => _convert_to_shekels self (budget * 0.75)
  | Taux_Endettement => 0.65
  | Taux_Fiscalite => 0.92
  | Investissement_Technologie => _convert_to_shekels self (budget * 0.08)
  | Investissement_Tourisme => _convert_to_shekels self (budget * 0.06)
  | Investissement_Transport => _convert_to_shekels self (budget * 0.05)
  | Investissement_Education => _convert_to_shekels self (budget * 0.07)
  | Investissement_Securite => _convert_to_shekels self (budget * 0.04)
  | Investissement_Environnement => _convert_to_shekels self (budget * 0.03)
  | Investissement_Culture => _convert_to_shekels self (budget * 0.02)
  end.

Definition growth (m : Metric) (self : Analyzer) : Growth :=
  match m with
  | Population => LinearInIndex (population_growth_rate self)
  | Menages => LinearInIndex 0.018
  | Recettes_Totales => LinearInIndex (total_revenue_growth_rate self)
  | Impots_Locaux => LinearInIndex 0.032
  | Subventions_Gouvernement => LinearFromYear 2010 0.008
  | Autres_Recettes => LinearInIndex 0.028
  | Depenses_Totales => LinearInIndex 0.034
  | Fonctionnement => LinearInIndex 0.030
  | Investissement => LinearInIndex 0.028
  | Charge_Dette => LinearFromYear 2005 0.008
  | Personnel => LinearInIndex 0.031
  | Epargne_Brute => LinearFromYear 2010 0.010
  | Dette_Totale => NoGrowth
  | Taux_Endettement => LinearFromYear 2010 (-0.012)
  | Taux_Fiscalite => LinearFromYear 2010 0.006
  | Investissement_Technologie => LinearInIndex 0.045
  | Investissement_Tourisme => LinearInIndex 0.035
  | Investissement_Transport => LinearInIndex 0.032
  | Investissement_Education => LinearInIndex 0.030
  | Investissement_Securite => LinearInIndex 0.025
  | Investissement_Environnement => LinearInIndex 0.028
  | Investissement_Culture => LinearInIndex 0.025
  end.

(** The calendar years on which a metric gets a multiplier, with it. *)
Definition event_years (m : Metric) : list (list Z * Q) :=
  match m with
  | Investissement =>
      [([2006; 2012; 2018; 2023]%Z, 1.6); ([2008; 2014; 2020]%Z, 0.8)]
  | Dette_Totale =>
      [([2006; 2012; 2018; 2023]%Z, 1.20); ([2008; 2014; 2020]%Z, 0.88)]
  | Investissement_Technologie => [([2005; 2010; 2015; 2020]%Z, 2.2)]
  | Investissement_Tourisme => [([2007; 2013; 2019; 2024]%Z, 1.8)]
  | Investissement_Transport => [([2006; 2012; 2018; 2023]%Z, 1.7)]
  | Investissement_Education => [([2008; 2014; 2020]%Z, 1.6)]
  | Investissement_Securite => [([2002; 2006; 2009; 2014; 2021]%Z, 2.0)]
  | Investissement_Environnement => [([2009; 2015; 2021]%Z, 1.8)]
  | Investissement_Culture => [([2010; 2016; 2022]%Z, 1.9)]
  | _ => []
  end.

(** The first list that holds the year decides; 1.0 when none does. *)
Fixpoint lookup_year (evs : list (list Z * Q)) (year : Z) : Q :=
  match evs with
  | [] => 1.0
  | (ys, k) :: evs' => if year_in year ys then k else lookup_year evs' year
  end.

Definition event_year_multiplier (m : Metric) (year : Z) : Q :=
  lookup_year (event_years m) year.

Definition specialty_multiplier (m : Metric) (self : Analyzer) : Q :=
  match m with
  | Investissement_Technologie => technology_multiplier self
  | Investissement_Tourisme => tourism_multiplier self
  | Investissement_Transport => transport_multiplier self
  | Investissement_Education => education_multiplier self
  | Investissement_Securite => security_multiplier self
  | Investissement_Environnement => environment_multiplier self
  | Investissement_Culture => culture_multiplier self
  | _ => 1
  end.

(** The [scale] of the metric's [np.random.normal(1, scale)]; [None] for
    a metric computed without a draw. *)
Definition noise_sd (m : Metric) : option Q :=
  match m with
  | Population | Menages => None
  | Recettes_Totales => Some 0.07
  | Impots_Locaux => Some 0.08
  | Subventions_Gouvernement => Some 0.05
  | Autres_Recettes => Some 0.09
  | Depenses_Totales => Some 0.06
  | Fonctionnement => Some 0.05
  | Investissement => Some 0.15
  | Charge_Dette => Some 0.09
  | Personnel => Some 0.04
  | Epargne_Brute => Some 0.12
  | Dette_Totale => Some 0.08
  | Taux_Endettement => Some 0.06
  | Taux_Fiscalite => Some 0.03
  | Investissement_Technologie => Some 0.18
  | Investissement_Tourisme => Some 0.16
  | Investissement_Transport => Some 0.15
  | Investissement_Education => Some 0.14
  | Investissement_Securite => Some 0.20
  | Investissement_Environnement => Some 0.16
  | Investissement_Culture => Some 0.15
  end.

(** The generator state after [k] draws of scale [sd] from [g]. *)
Definition after_draws {G : Type} `{!NormalSource G} (sd : Q) (k : nat)
    (g : G) : G :=
  Nat.iter k (λ g, (normal 1 sd g).2) g.

Arguments after_draws : simpl never.

(** A loop body that draws once with scale [sd] and computes its value
    from the index, the element and the sample. *)
Definition draws_once {G A B : Type} `{!NormalSource G}
    (body : nat → A → G → B * G) (sd : Q) (f : nat → A → Q → B) : Prop :=
  ∀ i x g, body i x g = (f i x (normal 1 sd g).1, (normal 1 sd g).2).

(** The noise factor of the [k]-th value of a metric whose simulator is
    entered in state [g]. *)
Definition noise {G : Type} `{!NormalSource G} (m : Metric) (k : nat)
    (g : G) : Q :=
  match noise_sd m with
  | Some sd => (normal 1 sd (after_draws sd k g)).1
  | None => 1
  end.

(** The product the spec describes, for the [i]-th date. *)
Definition shape_value {G : Type} `{!NormalSource G} (m : Metric)
    (self : Analyzer) (i : nat) (date : Timestamp) (g : G) : Q :=
  base m self
  * growth_factor (growth m self) i (year date)
  * event_year_multiplier m (year date)
  * specialty_multiplier m self
  * noise m i g.

(** The specialty tag a sector investment looks for in the profile. *)
Definition specialty_tag (m : Metric) : option string :=
  match m with
  | Investissement_Technologie => Some "technologie"
  | Investissement_Tourisme => Some "tourisme"
  | Investissement_Transport => Some "transport"
  | Investissement_Education => Some "education"
  | Investissement_Securite => Some "frontaliere"
  | Investissement_Environnement => Some "environnement"
  | Investissement_Culture => Some "culture"
  | _ => None
  end.

(** The analyzer of a name that is not in the table. *)
Definition default_analyzer : Analyzer :=
  mkAnalyzer "Nowhereville" 2002 2025 4.0 default_config.

(** ** The overlay as a table of windows

    The [if] chain of [_add_israeli_trends] read as data: each window has a
    test on the year and the cells of the row it rescales, in the order of
    the source.  The [elif] of the source makes the window 2010-2019 apply
    only when 2008-2009 does not, and the COVID window is split by year. *)

Record Window := mkWindow {
  applies : Q → bool;
  adjustments : list (string * Q)
}.

Definition windows : list Window := [
  mkWindow (λ year, between 2002 year 2005)
    [("Investissement_Tourisme", 0.7); ("Recettes_Totales", 0.95)];
  mkWindow (λ year, between 2006 year 2008)
    [("Investissement_Technologie", 1.6); ("Recettes_Totales", 1.08)];
  mkWindow (λ year, between 2008 year 2009)
    [("Recettes_Totales", 0.92); ("Investissement", 0.78)];
  mkWindow (λ year, negb (between 2008 year 2009) && between 2010 year 2019)
    [("Investissement_Technologie", 1.2); ("Subventions_Gouvernement", 1.05)];
  mkWindow (λ year, Qeq_bool year 2014)
    [("Investissement_Securite", 2.5); ("Depenses_Totales", 1.08)];
  mkWindow (λ year, between 2020 year 2021 && Qeq_bool year 2020)
    [("Recettes_Totales", 0.85); ("Investissement_Tourisme", 0.6)];
  mkWindow (λ year, between 2020 year 2021 && negb (Qeq_bool year 2020))
    [("Subventions_Gouvernement", 1.15)];
  mkWindow (λ year, Qle_bool 2022 year)
    [("Investissement_Technologie", 1.25); ("Investissement_Transport", 1.15);
     ("Investissement_Environnement", 1.20)]
].

(** [df.loc[i, col] *= k] for each adjustment of a list, in order. *)
Fixpoint mul_all (i : nat) (adj : list (string * Q)) (df : DataFrame)
    : option DataFrame :=
  match adj with
  | [] => Some df
  | (col, k) :: adj' => df' ← loc_mul i col k df; mul_all i adj' df'
  end.

(** The adjustments a row of the given year receives, in order. *)
Definition adjustments_of_year (year : Q) : list (string * Q) :=
  w ← windows; if applies w year then adjustments w else [].

(** The columns some window names for the year. *)
Definition named (year : Q) : list string := (adjustments_of_year year).*1.

(** The columns some window names for some year. *)
Definition adjustable : list string :=
  remove_dups ((w ← windows; adjustments w).*1).

(** The multipliers a cell of column [col] receives in a row of the given
    year, in order of application. *)
Definition factors (col : string) (year : Q) : list Q :=
  (filter (λ a, a.1 = col) (adjustments_of_year year)).*2.

(** A cell after the multiplications, left to right. *)
Definition rescale (ks : list Q) (v : Q) : Q := foldl Qmult v ks.

(** A one-row frame for the year 2008 with the columns that row needs and
    one column no window names. *)
Definition frame_2008 : DataFrame :=
  mkDataFrame 1
    (list_to_map [
       ("Annee", [2008]);
       ("Population", [460000]);
       ("Recettes_Totales", [1000]);
       ("Investissement", [100]);
       ("Investissement_Technologie", [10]) ]).

(** ** The table before the overlay *)

(** The dates of an analyzer. *)
Definition dates_of (self : Analyzer) : list Timestamp :=
  date_range_Y (start_year self) (end_year self).

(** The frame [pd.DataFrame(data)] that [generate_financial_data] hands to
    the overlay: one row per date and the columns of [data]. *)
Definition raw_frame {G : Type} `{!NormalSource G} (self : Analyzer) (g : G)
    : DataFrame :=
  mkDataFrame (length (dates_of self)) (financial_dict self g).1.

(** ** The report

    [_generate_financial_insights] prints figures computed from the
    table and a list of recommendations chosen from the profile.  The
    figures and the recommendation lines are modelled; their formatting
    as text is not. *)

(** A printed figure.  NumPy does not raise on a division by zero or on
    the mean of nothing: it yields [inf] or [nan], which is [None] here. *)
Definition Figure : Type := option Q.

(** [a / b] on floats of NumPy. *)
Definition fdiv (a b : Figure) : Figure :=
  x ← a; y ← b; if Qeq_bool y 0 then None else Some (x / y).

(** [a - k] and [a * k] for a literal [k]. *)
Definition fsub (a : Figure) (k : Q) : Figure := (λ x, x - k) <$> a.
Definition fmul (a : Figure) (k : Q) : Figure := (λ x, x * k) <$> a.

(** [Series.sum()] *)
Definition total (c : list Q) : Q := foldr Qplus 0 c.

(** [Series.mean()]: [nan] for a series without values. *)
Definition mean (c : list Q) : Figure :=
  match c with
  | [] => None
  | _ :: _ => Some (total c / inject_Z (Z.of_nat (length c)))
  end.

(** The figures and the recommendation lines of the report. *)
Record Insights := mkInsights {
  avg_revenue : Figure;
  avg_expenses : Figure;
  avg_savings : Figure;
  avg_debt : Figure;
  revenue_growth : Figure;
  population_growth : Figure;
  tax_share : Figure;
  gov_share : Figure;
  investment_share : Figure;
  avg_debt_ratio : Figure;
  avg_tax_rate : Figure;
  last_debt_ratio : Figure;
  recommendations : list string
}.

(** Section 7 of the report: the lines chosen by the profile, then the
    four lines every commune gets. *)
Definition recommandations_strategiques (self : Analyzer) : list string :=
  (if has_specialite self "technologie" then
     [ "• Développer les parcs technologiques et les startups";
       "• Attirer les investissements étrangers dans la high-tech" ]
   else [])
  ++ (if has_specialite self "tourisme" then
        [ "• Promouvoir le tourisme religieux, balnéaire et culturel";
          "• Développer les infrastructures d'accueil internationales" ]
      else [])
  ++ (if has_specialite self "sécurité"
         || bool_decide (type (config self) ∈ ["capitale"; "frontaliere"])
      then
        [ "• Moderniser les infrastructures de sécurité";
          "• Développer les systèmes de protection civile" ]
      else [])
  ++ [ "• Investir dans les technologies vertes et durables";
       "• Renforcer les partenariats universités-entreprises";
       "• Développer les transports publics intelligents";
       "• Promouvoir l'innovation dans l'agriculture et l'eau" ].

(** [_generate_financial_insights(df)].  [df[col]] raises [KeyError] on a
    missing column and [.iloc[-1]], [.iloc[0]] raise [IndexError] on a
    column without values; the statements run in the order of the source,
    so the first exception is the one raised. *)
Definition _generate_financial_insights (self : Analyzer) (df : DataFrame)
    : option Insights :=
  (* 1. statistiques generales *)
  recettes ← columns df !! "Recettes_Totales";
  depenses ← columns df !! "Depenses_Totales";
  epargne ← columns df !! "Epargne_Brute";
  dette ← columns df !! "Dette_Totale";
  (* 2. taux de croissance *)
  recettes_last ← last recettes;
  recettes_first ← head recettes;
  population ← columns df !! "Population";
  population_last ← last population;
  population_first ← head population;
  (* 3. structure financiere *)
  impots ← columns df !! "Impots_Locaux";
  subventions ← columns df !! "Subventions_Gouvernement";
  investissement ← columns df !! "Investissement";
  (* 4. endettement et fiscalite *)
  taux_endettement ← columns df !! "Taux_Endettement";
  taux_fiscalite ← columns df !! "Taux_Fiscalite";
  taux_endettement_last ← last taux_endettement;
  Some {|
    avg_revenue := mean recettes;
    avg_expenses := mean depenses;
    avg_savings := mean epargne;
    avg_debt := mean dette;
    revenue_growth :=
      fmul (fsub (fdiv (Some recettes_last) (Some recettes_first)) 1) 100;
    population_growth :=
      fmul (fsub (fdiv (Some population_last) (Some population_first)) 1)
        100;
    tax_share := fmul (fdiv (mean impots) (mean recettes)) 100;
    gov_share := fmul (fdiv (mean subventions) (mean recettes)) 100;
    investment_share := fmul (fdiv (mean investissement) (mean depenses)) 100;
    avg_debt_ratio := fmul (mean taux_endettement) 100;
    avg_tax_rate := mean taux_fiscalite;
    last_debt_ratio := Some (taux_endettement_last * 100);
    recommendations := recommandations_strategiques self
  |}.

(** ** The entry point *)

(** The menu of [main]. *)
Definition communes : list string := [
  "Jérusalem"; "Tel Aviv-Jaffa"; "Haïfa"; "Beer-Sheva"; "Netanya";
  "Ashdod"; "Rishon LeZion"; "Petah Tikva"; "Eilat"; "Tiberiade";
  "Nahariya"; "Safed"; "Herzliya"; "Ramla"; "Lod"; "Modiin";
  "Kfar Saba"; "Ra'anana"; "Hadera"; "Ashkelon"; "Bat Yam"; "Holon"
].

(** The [try] block of [main].  [choix] is the result of
    [int(input(...))], [None] when [int] raises [ValueError]; a number
    outside the menu raises [ValueError] too, and both [ValueError] and
    [IndexError] select "Tel Aviv-Jaffa". *)
Definition commune_selectionnee (choix : option Z) : string :=
  default "Tel Aviv-Jaffa"
    (c ← choix;
     if bool_decide (c < 1 ∨ c > Z.of_nat (length communes))%Z then None
     else communes !! Z.to_nat (c - 1)).

(** What [main] computes: the selected name, the name of the CSV file, the
    table and the figures of the report. *)
Record MainResult := mkMainResult {
  selected : string;
  output_file : string;
  financial_data : option DataFrame;
  insights : option Insights
}.

(** [main], without its printing, CSV writing and plotting.  The report
    is made by [create_financial_analysis], with the analyzer of the
    selected commune. *)
Definition main {G : Type} `{!NormalSource G} (choix : option Z) (g : G)
    : option MainResult * G :=
  let name := commune_selectionnee choix in
  match __init__ name with
  | None => (None, g)
  | Some analyzer =>
      let '(data, g') := generate_financial_data analyzer g in
      (Some (mkMainResult name
               (name +:+ "_financial_data_Israel_2002_2025.csv")
               data
               (df ← data; _generate_financial_insights analyzer df)),
       g')
  end.

(** ** Draws *)

(** The generator state after the simulator of [m] has run over [n]
    dates: [n] draws of the metric's scale, or none. *)
Definition draws_of {G : Type} `{!NormalSource G} (n : nat) (g : G)
    (m : Metric) : G :=
  match noise_sd m with
  | Some sd => after_draws sd n g
  | None => g
  end.

(** ** Changing the budget *)



(** The columns the report reads, in the order it first reads them. *)
Definition report_columns : list string := [
  "Recettes_Totales"; "Depenses_Totales"; "Epargne_Brute"; "Dette_Totale";
  "Population"; "Impots_Locaux"; "Subventions_Gouvernement";
  "Investissement"; "Taux_Endettement"; "Taux_Fiscalite"
].

(** The columns of which the report takes the first or the last value. *)
Definition report_endpoints : list string :=
  [ "Recettes_Totales"; "Population"; "Taux_Endettement" ].

(** * Properties *)

(** ** The profile table *)

Lemma configs_default : configs !! "default" = Some default_config.
Proof. reflexivity. Qed.

Lemma get_commune_config_eq (name : string) :
  _get_commune_config name = Some (default default_config (configs !! name)).
Proof. unfold _get_commune_config. by rewrite configs_default. Qed.

(** Whatever the name, the selected profile is a value of the table. *)
Lemma get_commune_config_in_table (name : string) (cfg : Config) :
  _get_commune_config name = Some cfg → ∃ key, configs !! key = Some cfg.
Proof.
  rewrite get_commune_config_eq. intros [= <-].
  destruct (configs !! name) as [c|] eqn:E; simpl.
  - by exists name.
  - exists "default". apply configs_default.
Qed.

Lemma init_eq (name : string) :
  __init__ name =
  Some (mkAnalyzer name 2002 2025 4.0
          (default default_config (configs !! name))).
Proof. unfold __init__. by rewrite get_commune_config_eq. Qed.

(** C7. Profile resolution never fails: every name resolves to a profile,
    a name absent from the table resolves to the default profile, and
    "Nowhereville" gets population_base 50000, budget_base 800 and the
    type "locale". *)
Theorem get_commune_config_total :
  (∀ name : string, ∃ cfg, _get_commune_config name = Some cfg) ∧
  (∀ name : string, configs !! name = None →
     _get_commune_config name = Some default_config) ∧
  (∃ cfg, _get_commune_config "Nowhereville" = Some cfg ∧
     population_base cfg = 50000%Z ∧ budget_base cfg = 800%Z ∧
     type cfg = "locale" ∧
     specialites cfg = ["commerce_local"; "services"; "education"; "sante"]).
Proof.
  split; [|split].
  - intros name. rewrite get_commune_config_eq. eauto.
  - intros name E. by rewrite get_commune_config_eq, E.
  - exists default_config. by split.
Qed.

(** No profile of the table has the type "technologie". *)
Lemma configs_no_technologie :
  map_Forall (λ _ cfg, type cfg ≠ "technologie") configs.
Proof. apply (bool_decide_unpack _). by vm_compute. Qed.

(** C10. For every name, the analyzer exists and its total-revenue growth
    rate is 0.038 exactly when the profile's type is "metropolitaine" and
    0.035 otherwise; the type is never "technologie", so the rate 0.042
    is never chosen. *)
Theorem total_revenue_growth_rate_reachable (name : string) :
  ∃ self, __init__ name = Some self ∧
    (type (config self) = "metropolitaine" →
       total_revenue_growth_rate self = 0.038) ∧
    (type (config self) ≠ "metropolitaine" →
       total_revenue_growth_rate self = 0.035) ∧
    type (config self) ≠ "technologie" ∧
    ¬ total_revenue_growth_rate self == 0.042.
Proof.
  destruct (__init__ name) as [self|] eqn:Hinit;
    [|by rewrite init_eq in Hinit].
  exists self. split; [done|].
  assert (Htech : type (config self) ≠ "technologie").
  { unfold __init__ in Hinit.
    destruct (_get_commune_config name) as [cfg|] eqn:Hcfg; [|done].
    injection Hinit as <-. simpl.
    destruct (get_commune_config_in_table _ _ Hcfg) as [key Hkey].
    exact (configs_no_technologie key cfg Hkey). }
  unfold total_revenue_growth_rate, type_is.
  repeat split; try done.
  - intros ->. done.
  - intros Hne. rewrite bool_decide_eq_false_2 by done.
    by rewrite bool_decide_eq_false_2.
  - case_bool_decide; [by intros ?|].
    rewrite bool_decide_eq_false_2 by done. by intros ?.
Qed.

(** ** Loops and draws *)

Section ForEnumerate.
Context {G A B : Type} `{!NormalSource G}.
Implicit Types (body : nat → A → G → B * G) (xs : list A) (g : G).

Lemma for_enumerate_length body i xs g :
  length (for_enumerate body i xs g).1 = length xs.
Proof.
  revert i g. induction xs as [|x xs IH]; intros i g; simpl; [done|].
  destruct (body i x g) as [v g1].
  specialize (IH (S i) g1).
  destruct (for_enumerate body (S i) xs g1) as [vs g2]. simpl in *.
  by rewrite IH.
Qed.

Lemma after_draws_S sd k g :
  after_draws sd (S k) g = after_draws sd k (normal 1 sd g).2.
Proof. unfold after_draws. by rewrite Nat.iter_succ_r. Qed.

Lemma for_enumerate_draws_lookup body sd f xs i g k x :
  draws_once body sd f →
  xs !! k = Some x →
  (for_enumerate body i xs g).1 !! k
  = Some (f (i + k)%nat x (normal 1 sd (after_draws sd k g)).1).
Proof.
  intros Hbody. revert i g k.
  induction xs as [|y xs IH]; intros i g k Hk; [done|].
  simpl. rewrite Hbody.
  specialize (IH (S i) (normal 1 sd g).2).
  destruct (for_enumerate body (S i) xs (normal 1 sd g).2) as [vs g2].
  destruct k as [|k]; simpl in *.
  - injection Hk as ->. by rewrite Nat.add_0_r.
  - rewrite (IH k Hk), after_draws_S. do 3 f_equal. lia.
Qed.

Lemma for_enumerate_draws_state body sd f xs i g :
  draws_once body sd f →
  (for_enumerate body i xs g).2 = after_draws sd (length xs) g.
Proof.
  intros Hbody. revert i g.
  induction xs as [|y xs IH]; intros i g; [done|].
  simpl. rewrite Hbody.
  specialize (IH (S i) (normal 1 sd g).2).
  destruct (for_enumerate body (S i) xs (normal 1 sd g).2) as [vs g2].
  simpl in *. by rewrite IH, after_draws_S.
Qed.


End ForEnumerate.

(** ** The simulators *)

Section SimulatorFacts.
Context {G : Type} `{!NormalSource G}.
Implicit Types (self : Analyzer) (dates : list Timestamp) (g : G).

Lemma draws_once_intro {A B} (body : nat → A → G → B * G) sd f :
  (∀ i x g, body i x g = let '(n, g') := normal 1 sd g in (f i x n, g')) →
  draws_once body sd f.
Proof. intros Hb i x g. rewrite Hb. by destruct (normal 1 sd g). Qed.

Ltac solve_draws_once := apply draws_once_intro; intros; reflexivity.

Ltac unfold_simulator :=
  unfold simulate, _simulate_population, _simulate_households,
    _simulate_total_revenue, _simulate_tax_revenue,
    _simulate_government_grants, _simulate_other_revenue,
    _simulate_total_expenses, _simulate_operating_expenses,
    _simulate_investment_expenses, _simulate_debt_charges,
    _simulate_staff_costs, _simulate_gross_savings, _simulate_total_debt,
    _simulate_debt_ratio, _simulate_tax_rate,
    _simulate_technology_investment, _simulate_tourism_investment,
    _simulate_transport_investment, _simulate_education_investment,
    _simulate_security_investment, _simulate_environment_investment,
    _simulate_culture_investment.

(** Every simulator returns one value per date. *)
Lemma simulate_length m self dates g :
  length (simulate m self dates g).1 = length dates.
Proof.
  destruct m; unfold_simulator; simpl;
    first [ apply length_imap | apply for_enumerate_length ].
Qed.

(** The state a simulator leaves: its draws, one per date, or none. *)
Lemma simulate_state m self dates g :
  (simulate m self dates g).2
  = match noise_sd m with
    | Some sd => after_draws sd (length dates) g
    | None => g
    end.
Proof.
  destruct m; unfold_simulator; simpl; try reflexivity;
    (eapply for_enumerate_draws_state; solve_draws_once).
Qed.

(** The [i]-th value of a simulated column is the product of the metric's
    base, growth factor, event-year multiplier, specialty multiplier and
    noise factor. *)
Lemma simulate_lookup m self dates g i date :
  dates !! i = Some date →
  ∃ v, (simulate m self dates g).1 !! i = Some v
       ∧ v == shape_value m self i date g.
Proof.
  intros Hi.
  destruct m; unfold_simulator; cbv zeta; cbn [fst];
    first [ rewrite list_lookup_imap, Hi; cbn [fmap option_fmap option_map]
          | erewrite for_enumerate_draws_lookup;
              [| solve_draws_once | exact Hi] ];
    (eexists; split; [reflexivity|]);
    unfold shape_value, noise, event_year_multiplier; simpl;
    repeat case_bool_decide; ring.
Qed.


End SimulatorFacts.

(** ** The dictionary of columns *)

Section DictFacts.
Context {G : Type} `{!NormalSource G}.
Implicit Types (self : Analyzer) (dates : list Timestamp) (g : G).
Implicit Types (acc : gmap string (list Q) * G) (ms : list Metric).

Lemma fill_fst self dates acc m :
  (fill self dates acc m).1
  = <[label m := (simulate m self dates acc.2).1]> acc.1.
Proof. unfold fill. by destruct (simulate m self dates acc.2). Qed.

Lemma fill_snd self dates acc m :
  (fill self dates acc m).2 = (simulate m self dates acc.2).2.
Proof. unfold fill. by destruct (simulate m self dates acc.2). Qed.

Lemma fill_pair self dates (d : gmap string (list Q)) g m :
  fill self dates (d, g) m
  = (<[label m := (simulate m self dates g).1]> d,
     (simulate m self dates g).2).
Proof. unfold fill. simpl. by destruct (simulate m self dates g). Qed.

Lemma foldl_cons_step {A B} (f : A → B → A) a x l :
  foldl f a (x :: l) = foldl f (f a x) l.
Proof. reflexivity. Qed.

(** The straight-line code of [generate_financial_data] fills [data] as a
    fold over the metrics, starting from the years column. *)
Lemma financial_dict_fold self g :
  financial_dict self g
  = foldl (fill self (date_range_Y (start_year self) (end_year self)))
      ({[ "Annee" := (λ date, inject_Z (year date))
                     <$> date_range_Y (start_year self) (end_year self) ]}, g)
      metrics.
Proof.
  unfold financial_dict, metrics.
  repeat rewrite foldl_cons_step, fill_pair.
  cbn [foldl simulate label fst snd].
  repeat match goal with
  | |- context [let '(_, _) := ?p in _] => destruct p; cbn [fst snd]
  end.
  reflexivity.
Qed.

Lemma label_inj : Inj (=) (=) label.
Proof. intros m1 m2. destruct m1, m2; simpl; congruence. Qed.

Lemma label_not_Annee m : label m ≠ "Annee".
Proof. by destruct m. Qed.

Lemma metrics_NoDup : NoDup metrics.
Proof. apply (bool_decide_unpack _). by vm_compute. Qed.

Lemma metrics_complete m : m ∈ metrics.
Proof. destruct m; apply (bool_decide_unpack _); by vm_compute. Qed.

Lemma foldl_fill_lookup_other self dates ms acc (l : string) :
  l ∉ label <$> ms →
  (foldl (fill self dates) acc ms).1 !! l = acc.1 !! l.
Proof.
  revert acc. induction ms as [|m ms IH]; intros acc Hl; [done|].
  rewrite fmap_cons, not_elem_of_cons in Hl. destruct Hl as [Hm Hms].
  simpl. rewrite IH by done. rewrite fill_fst.
  by rewrite lookup_insert_ne.
Qed.

(** The column stored for a metric is what its simulator returns from the
    state the earlier simulators left. *)
Lemma foldl_fill_lookup self dates ms acc m :
  NoDup ms → m ∈ ms →
  (foldl (fill self dates) acc ms).1 !! label m
  = Some (simulate m self dates (state_before self dates ms m acc.2)).1.
Proof.
  revert acc. induction ms as [|m' ms IH]; intros acc Hnd Hin.
  { by apply elem_of_nil in Hin. }
  apply NoDup_cons in Hnd as [Hm' Hnd]. simpl.
  destruct (decide (m' = m)) as [->|Hne].
  - rewrite foldl_fill_lookup_other.
    + rewrite fill_fst. by rewrite lookup_insert_eq.
    + intros Hl. apply Hm'.
      apply list_elem_of_fmap in Hl as (m'' & Heq & Hin'').
      by rewrite (label_inj _ _ Heq).
  - apply elem_of_cons in Hin as [->|Hin]; [done|].
    rewrite IH by done. by rewrite fill_snd.
Qed.

Lemma foldl_fill_dom self dates ms acc :
  dom (foldl (fill self dates) acc ms).1
  = dom acc.1 ∪ list_to_set (label <$> ms).
Proof.
  revert acc. induction ms as [|m ms IH]; intros acc; simpl.
  - by rewrite (right_id_L ∅ (∪)).
  - rewrite IH, fill_fst, dom_insert_L.
    by rewrite (comm_L (∪) {[label m]}), <- (assoc_L (∪)).
Qed.

Lemma foldl_fill_lengths self dates ms acc :
  map_Forall (λ _ c, length c = length dates) acc.1 →
  map_Forall (λ _ c, length c = length dates)
    (foldl (fill self dates) acc ms).1.
Proof.
  revert acc. induction ms as [|m ms IH]; intros acc Hacc; [done|].
  simpl. apply IH. rewrite fill_fst.
  apply map_Forall_insert_2; [|done]. apply simulate_length.
Qed.


(** A dictionary of columns of one length makes a frame. *)
Lemma DataFrame_of_dict_Some (data : gmap string (list Q)) (n : nat) :
  data ≠ ∅ →
  map_Forall (λ _ c, length c = n) data →
  DataFrame_of_dict data = Some (mkDataFrame n data).
Proof.
  intros Hne Hlen. unfold DataFrame_of_dict.
  destruct (map_to_list data) as [|[k c] kcs] eqn:E.
  { by apply map_to_list_empty_iff in E. }
  assert (length c = n) as Hc.
  { apply (Hlen k). apply elem_of_map_to_list. rewrite E. left. }
  simpl. rewrite Hc. by rewrite bool_decide_eq_true_2.
Qed.

End DictFacts.

(** ** One cell update *)

Lemma loc_mul_Some i col k df df' :
  loc_mul i col k df = Some df' →
  ∃ c v, columns df !! col = Some c ∧ c !! i = Some v ∧
    df' = mkDataFrame (nrows df) (<[col := <[i := v * k]> c]> (columns df)).
Proof.
  unfold loc_mul. intros Hm.
  destruct (columns df !! col) as [c|] eqn:Hc; [|done]. simpl in Hm.
  destruct (c !! i) as [v|] eqn:Hv; [|done]. simpl in Hm.
  injection Hm as <-. eauto.
Qed.

Lemma loc_mul_nrows i col k df df' :
  loc_mul i col k df = Some df' → nrows df' = nrows df.
Proof. intros (c & v & _ & _ & ->)%loc_mul_Some. done. Qed.

Lemma loc_mul_dom i col k df df' :
  loc_mul i col k df = Some df' → dom (columns df') = dom (columns df).
Proof.
  intros (c & v & Hc & _ & ->)%loc_mul_Some. simpl.
  rewrite dom_insert_L. apply (elem_of_dom_2 (D:=gset string)) in Hc.
  apply subseteq_union_1_L. by apply singleton_subseteq_l.
Qed.

(** Columns other than the one addressed are the same lists. *)
Lemma loc_mul_columns_ne i col k df df' col' :
  loc_mul i col k df = Some df' → col' ≠ col →
  columns df' !! col' = columns df !! col'.
Proof.
  intros (c & v & _ & _ & ->)%loc_mul_Some Hne. simpl.
  by rewrite lookup_insert_ne.
Qed.

(** Column lengths are kept. *)
Lemma loc_mul_lengths i col k df df' n :
  loc_mul i col k df = Some df' →
  map_Forall (λ _ c, length c = n) (columns df) →
  map_Forall (λ _ c, length c = n) (columns df').
Proof.
  intros (c & v & Hc & _ & ->)%loc_mul_Some Hlen. simpl.
  apply map_Forall_insert_2; [|done].
  rewrite length_insert. exact (Hlen _ _ Hc).
Qed.

(** The cell addressed is multiplied; every other cell is kept. *)
Lemma loc_mul_cell i col k df df' col' j :
  loc_mul i col k df = Some df' →
  cell df' col' j
  = if decide (col' = col ∧ j = i)
    then (λ v, v * k) <$> cell df col' j
    else cell df col' j.
Proof.
  intros (c & v & Hc & Hv & ->)%loc_mul_Some. unfold cell. simpl.
  destruct (decide (col' = col)) as [->|Hne].
  - rewrite lookup_insert_eq, Hc. simpl.
    destruct (decide (j = i)) as [->|Hji].
    + rewrite decide_True by done.
      rewrite list_lookup_insert_eq by (by eapply lookup_lt_Some).
      by rewrite Hv.
    + rewrite decide_False by (by intros [_ ?]).
      by rewrite list_lookup_insert_ne.
  - rewrite decide_False by (by intros [? _]).
    by rewrite lookup_insert_ne.
Qed.

Lemma loc_mul_is_Some i col k df :
  is_Some (cell df col i) → is_Some (loc_mul i col k df).
Proof.
  unfold cell, loc_mul. intros [v Hv].
  destruct (columns df !! col) as [c|]; [|done]. simpl in *.
  rewrite Hv. simpl. eauto.
Qed.

(** ** A list of updates on one row *)

Lemma rescale_cons k ks v : rescale (k :: ks) v = rescale ks (v * k).
Proof. reflexivity. Qed.

Lemma mul_all_nrows i adj df df' :
  mul_all i adj df = Some df' → nrows df' = nrows df.
Proof.
  revert df. induction adj as [|[col k] adj IH]; intros df Hm; simpl in Hm.
  - by injection Hm as <-.
  - destruct (loc_mul i col k df) as [df1|] eqn:E; [|done]. simpl in Hm.
    rewrite (IH _ Hm). by eapply loc_mul_nrows.
Qed.

Lemma mul_all_dom i adj df df' :
  mul_all i adj df = Some df' → dom (columns df') = dom (columns df).
Proof.
  revert df. induction adj as [|[col k] adj IH]; intros df Hm; simpl in Hm.
  - by injection Hm as <-.
  - destruct (loc_mul i col k df) as [df1|] eqn:E; [|done]. simpl in Hm.
    rewrite (IH _ Hm). by eapply loc_mul_dom.
Qed.

Lemma mul_all_lengths i adj df df' n :
  mul_all i adj df = Some df' →
  map_Forall (λ _ c, length c = n) (columns df) →
  map_Forall (λ _ c, length c = n) (columns df').
Proof.
  revert df. induction adj as [|[col k] adj IH]; intros df Hm Hlen;
    simpl in Hm.
  - by injection Hm as <-.
  - destruct (loc_mul i col k df) as [df1|] eqn:E; [|done]. simpl in Hm.
    apply (IH _ Hm). by eapply loc_mul_lengths.
Qed.

Lemma mul_all_columns_ne i adj df df' col' :
  mul_all i adj df = Some df' → col' ∉ adj.*1 →
  columns df' !! col' = columns df !! col'.
Proof.
  revert df. induction adj as [|[col k] adj IH]; intros df Hm Hcol;
    simpl in Hm.
  - by injection Hm as <-.
  - rewrite fmap_cons, not_elem_of_cons in Hcol. destruct Hcol as [Hne Hcol].
    destruct (loc_mul i col k df) as [df1|] eqn:E; [|done]. simpl in Hm.
    rewrite (IH _ Hm Hcol). by eapply loc_mul_columns_ne.
Qed.

(** A cell of row [i] gets the multipliers listed for its column, in
    order; the cells of the other rows are kept. *)
Lemma mul_all_cell i adj df df' col' j :
  mul_all i adj df = Some df' →
  cell df' col' j
  = if decide (j = i)
    then rescale (filter (λ a, a.1 = col') adj).*2 <$> cell df col' j
    else cell df col' j.
Proof.
  revert df. induction adj as [|[col k] adj IH]; intros df Hm; simpl in Hm.
  - injection Hm as <-. case_decide; [|done].
    by destruct (cell df col' j).
  - destruct (loc_mul i col k df) as [df1|] eqn:E; [|done]. simpl in Hm.
    rewrite (IH _ Hm), (loc_mul_cell _ _ _ _ _ col' j E).
    destruct (decide (j = i)) as [->|Hji].
    + rewrite filter_cons. cbn [fst].
      destruct (decide (col = col')) as [->|Hne].
      * rewrite decide_True by done. by destruct (cell df col' i).
      * by rewrite decide_False by (by intros [? _]).
    + by rewrite decide_False by (by intros [_ ?]).
Qed.

Lemma mul_all_is_Some i adj df :
  (∀ col, col ∈ adj.*1 → is_Some (cell df col i)) →
  is_Some (mul_all i adj df).
Proof.
  revert df. induction adj as [|[col k] adj IH]; intros df Hcells; simpl.
  - eauto.
  - destruct (loc_mul_is_Some i col k df) as [df1 E].
    { apply Hcells. rewrite fmap_cons. left. }
    rewrite E. simpl. apply IH. intros col' Hcol'.
    rewrite (loc_mul_cell _ _ _ _ _ col' i E).
    assert (is_Some (cell df col' i)) as [v Hv].
    { apply Hcells. rewrite fmap_cons. by right. }
    rewrite Hv. case_decide; simpl; eauto.
Qed.

(** ** The loop body against the table of windows *)

Lemma mul_all_app i adj1 adj2 df :
  mul_all i (adj1 ++ adj2) df = mul_all i adj1 df ≫= mul_all i adj2.
Proof.
  revert df. induction adj1 as [|[col k] adj1 IH]; intros df; [done|].
  simpl. destruct (loc_mul i col k df) as [df1|]; [|done]. apply IH.
Qed.

Ltac solve_window :=
  repeat match goal with
  | |- context [if ?b then _ else _] => is_var b; destruct b
  end;
  cbn [negb andb app mul_all];
  repeat match goal with
  | |- context [loc_mul ?i ?c ?k ?d] =>
      destruct (loc_mul i c k d); cbn [mbind option_bind mul_all]
  end;
  reflexivity.

Ltac next_window :=
  rewrite mul_all_app; apply option_bind_ext; [intros ?|solve_window].

Lemma trends_of_year_table i year df :
  trends_of_year i year df = mul_all i (adjustments_of_year year) df.
Proof.
  unfold trends_of_year, adjustments_of_year, windows.
  cbn [mbind list_bind applies adjustments].
  generalize (between 2002 year 2005) (between 2006 year 2008)
    (between 2008 year 2009) (between 2010 year 2019) (Qeq_bool year 2014)
    (between 2020 year 2021) (Qeq_bool year 2020) (Qle_bool 2022 year).
  intros b1 b2 b3 b4 b5 b6 b7 b8.
  rewrite app_nil_r.
  next_window. next_window.
  rewrite app_assoc. next_window.
  next_window.
  rewrite app_assoc. next_window.
  solve_window.
Qed.

(** ** The whole pass *)

Lemma adjustments_of_year_subseteq year :
  adjustments_of_year year ⊆ (w ← windows; adjustments w).
Proof.
  unfold adjustments_of_year. induction windows as [|w ws IH]; [done|].
  simpl. intros a Ha. apply elem_of_app.
  destruct (applies w year); simpl in Ha.
  - apply elem_of_app in Ha as [Ha|Ha]; [by left|right; by apply IH].
  - right. by apply IH.
Qed.

Lemma named_adjustable year col : col ∈ named year → col ∈ adjustable.
Proof.
  unfold named, adjustable. intros Hin.
  apply elem_of_remove_dups.
  apply list_elem_of_fmap in Hin as (a & -> & Ha).
  apply list_elem_of_fmap. exists a. split; [done|].
  by apply (adjustments_of_year_subseteq year).
Qed.

Lemma factors_not_named col year : col ∉ named year → factors col year = [].
Proof.
  unfold named, factors. intros Hcol.
  induction (adjustments_of_year year) as [|[c k] adj IH]; [done|].
  rewrite fmap_cons, not_elem_of_cons in Hcol. destruct Hcol as [Hne Hcol].
  rewrite filter_cons. cbn [fst].
  rewrite decide_False by done. by apply IH.
Qed.


Lemma trends_body_table i snapshot df :
  trends_body i (λ col, cell snapshot col i) df
  = cell snapshot "Annee" i ≫= λ y, mul_all i (adjustments_of_year y) df.
Proof.
  unfold trends_body. apply option_bind_ext; [|done].
  intros y. apply trends_of_year_table.
Qed.

Lemma trends_body_Some i snapshot df df1 :
  trends_body i (λ col, cell snapshot col i) df = Some df1 →
  ∃ y, cell snapshot "Annee" i = Some y
       ∧ mul_all i (adjustments_of_year y) df = Some df1.
Proof.
  rewrite trends_body_table. intros Hb.
  destruct (cell snapshot "Annee" i) as [y|]; [|done]. by exists y.
Qed.

Lemma iterrows_cons_Some body snapshot i labels df df' :
  iterrows body snapshot (i :: labels) df = Some df' →
  ∃ df1, body i (λ col, cell snapshot col i) df = Some df1
         ∧ iterrows body snapshot labels df1 = Some df'.
Proof.
  simpl. intros Hit.
  destruct (body i (λ col, cell snapshot col i) df) as [df1|]; [|done].
  eauto.
Qed.

Lemma iterrows_trends_nrows snapshot labels df df' :
  iterrows trends_body snapshot labels df = Some df' →
  nrows df' = nrows df.
Proof.
  revert df. induction labels as [|i labels IH]; intros df Hit.
  - by injection Hit as <-.
  - apply iterrows_cons_Some in Hit as (df1 & Hb & Hit).
    apply trends_body_Some in Hb as (y & _ & Hm).
    rewrite (IH _ Hit). by eapply mul_all_nrows.
Qed.

Lemma iterrows_trends_dom snapshot labels df df' :
  iterrows trends_body snapshot labels df = Some df' →
  dom (columns df') = dom (columns df).
Proof.
  revert df. induction labels as [|i labels IH]; intros df Hit.
  - by injection Hit as <-.
  - apply iterrows_cons_Some in Hit as (df1 & Hb & Hit).
    apply trends_body_Some in Hb as (y & _ & Hm).
    rewrite (IH _ Hit). by eapply mul_all_dom.
Qed.

Lemma iterrows_trends_lengths snapshot labels df df' n :
  iterrows trends_body snapshot labels df = Some df' →
  map_Forall (λ _ c, length c = n) (columns df) →
  map_Forall (λ _ c, length c = n) (columns df').
Proof.
  revert df. induction labels as [|i labels IH]; intros df Hit Hlen.
  - by injection Hit as <-.
  - apply iterrows_cons_Some in Hit as (df1 & Hb & Hit).
    apply trends_body_Some in Hb as (y & _ & Hm).
    apply (IH _ Hit). by eapply mul_all_lengths.
Qed.

(** A column no window names is the same list after the pass. *)
Lemma iterrows_trends_columns snapshot labels df df' col :
  iterrows trends_body snapshot labels df = Some df' →
  col ∉ adjustable →
  columns df' !! col = columns df !! col.
Proof.
  intros Hit Hcol. revert df Hit.
  induction labels as [|i labels IH]; intros df Hit.
  - by injection Hit as <-.
  - apply iterrows_cons_Some in Hit as (df1 & Hb & Hit).
    apply trends_body_Some in Hb as (y & _ & Hm).
    rewrite (IH _ Hit). eapply mul_all_columns_ne; [done|].
    intros Hin. apply Hcol. by eapply named_adjustable.
Qed.

(** The rows the loop does not visit are kept. *)
Lemma iterrows_trends_cell_other snapshot labels df df' col j :
  iterrows trends_body snapshot labels df = Some df' →
  j ∉ labels →
  cell df' col j = cell df col j.
Proof.
  revert df. induction labels as [|i labels IH]; intros df Hit Hj.
  - by injection Hit as <-.
  - apply not_elem_of_cons in Hj as [Hji Hj].
    apply iterrows_cons_Some in Hit as (df1 & Hb & Hit).
    apply trends_body_Some in Hb as (y & _ & Hm).
    rewrite (IH _ Hit Hj), (mul_all_cell _ _ _ _ col j Hm).
    by rewrite decide_False.
Qed.

(** A cell of a visited row is multiplied by the factors of its column
    for the year of the row, in the order of the windows. *)
Lemma iterrows_trends_cell snapshot labels df df' col j :
  iterrows trends_body snapshot labels df = Some df' →
  NoDup labels → j ∈ labels →
  ∃ y, cell snapshot "Annee" j = Some y
       ∧ cell df' col j = rescale (factors col y) <$> cell df col j.
Proof.
  revert df. induction labels as [|i labels IH]; intros df Hit Hnd Hj.
  { by apply elem_of_nil in Hj. }
  apply NoDup_cons in Hnd as [Hi Hnd].
  apply iterrows_cons_Some in Hit as (df1 & Hb & Hit).
  apply trends_body_Some in Hb as (y & Hy & Hm).
  apply elem_of_cons in Hj as [->|Hj].
  - exists y. split; [done|].
    rewrite (iterrows_trends_cell_other _ _ _ _ col i Hit Hi).
    rewrite (mul_all_cell _ _ _ _ col i Hm). by rewrite decide_True.
  - destruct (IH _ Hit Hnd Hj) as (y' & Hy' & Hcell).
    exists y'. split; [done|]. rewrite Hcell.
    rewrite (mul_all_cell _ _ _ _ col j Hm).
    rewrite decide_False; [done|]. by intros ->.
Qed.

(** The pass succeeds when the visited rows have a year and a value in
    every column a window may name. *)
Lemma iterrows_trends_is_Some snapshot labels df :
  (∀ i, i ∈ labels → is_Some (cell snapshot "Annee" i)) →
  (∀ i col, i ∈ labels → col ∈ adjustable → is_Some (cell df col i)) →
  is_Some (iterrows trends_body snapshot labels df).
Proof.
  intros Hyear. revert df.
  induction labels as [|i labels IH]; intros df Hcells; simpl; [eauto|].
  destruct (Hyear i) as [y Hy]; [left|].
  rewrite trends_body_table, Hy. cbn [mbind option_bind].
  destruct (mul_all_is_Some i (adjustments_of_year y) df) as [df1 Hm].
  { intros col Hcol. apply Hcells; [left|]. by eapply named_adjustable. }
  rewrite Hm. cbn [mbind option_bind]. apply IH.
  - intros j Hj. apply Hyear. by right.
  - intros j col Hj Hcol.
    rewrite (mul_all_cell _ _ _ _ col j Hm).
    destruct (Hcells j col) as [v Hv]; [by right|done|].
    rewrite Hv. case_decide; simpl; eauto.
Qed.

(** ** The generated table *)

Lemma date_range_Y_length s e :
  length (date_range_Y s e) = Z.to_nat (e - s + 1).
Proof. unfold date_range_Y. by rewrite length_fmap, length_seqZ. Qed.

Lemma date_range_Y_lookup s e (i : nat) :
  (Z.of_nat i < e - s + 1)%Z →
  date_range_Y s e !! i = Some (mkTimestamp (s + Z.of_nat i) 12 31).
Proof.
  intros Hi. unfold date_range_Y.
  rewrite list_lookup_fmap, lookup_seqZ_lt by lia. done.
Qed.

Lemma adjustable_labels : Forall (λ col, col ∈ label <$> metrics) adjustable.
Proof. apply (bool_decide_unpack _). by vm_compute. Qed.

Lemma Annee_not_adjustable : "Annee" ∉ adjustable.
Proof. apply (bool_decide_unpack _). by vm_compute. Qed.

Section GeneratorFacts.
Context {G : Type} `{!NormalSource G}.
Implicit Types (self : Analyzer) (g : G).

Lemma financial_dict_Annee self g :
  (financial_dict self g).1 !! "Annee"
  = Some ((λ date, inject_Z (year date)) <$> dates_of self).
Proof.
  rewrite financial_dict_fold, foldl_fill_lookup_other.
  - apply lookup_singleton_eq.
  - intros (m & Hm & _)%list_elem_of_fmap.
    by apply (label_not_Annee m).
Qed.

(** The column of a metric before the overlay is the output of its
    simulator, entered in the state its predecessors left. *)
Lemma financial_dict_metric self g m :
  (financial_dict self g).1 !! label m
  = Some (simulate m self (dates_of self)
            (state_before self (dates_of self) metrics m g)).1.
Proof.
  rewrite financial_dict_fold.
  apply (foldl_fill_lookup self _ metrics (_, g) m).
  - apply metrics_NoDup.
  - apply metrics_complete.
Qed.

Lemma financial_dict_dom self g :
  dom (financial_dict self g).1 = list_to_set column_labels.
Proof.
  rewrite financial_dict_fold, foldl_fill_dom. simpl.
  by rewrite dom_singleton_L.
Qed.

Lemma financial_dict_lengths self g :
  map_Forall (λ _ c, length c = length (dates_of self))
    (financial_dict self g).1.
Proof.
  rewrite financial_dict_fold. apply foldl_fill_lengths. simpl.
  apply map_Forall_singleton. by rewrite length_fmap.
Qed.

(** [pd.DataFrame(data)] succeeds. *)
Lemma financial_dict_frame self g :
  DataFrame_of_dict (financial_dict self g).1 = Some (raw_frame self g).
Proof.
  apply DataFrame_of_dict_Some; [|apply financial_dict_lengths].
  intros Hempty. pose proof (financial_dict_Annee self g) as HA.
  by rewrite Hempty in HA.
Qed.

Lemma generate_financial_data_eq self g :
  generate_financial_data self g
  = (_add_israeli_trends (raw_frame self g), (financial_dict self g).2).
Proof.
  unfold generate_financial_data.
  pose proof (financial_dict_frame self g) as Hdf.
  destruct (financial_dict self g) as [data g']. simpl in *.
  by rewrite Hdf.
Qed.

Lemma raw_frame_cell_Annee self g (i : nat) date :
  dates_of self !! i = Some date →
  cell (raw_frame self g) "Annee" i = Some (inject_Z (year date)).
Proof.
  intros Hi. unfold cell, raw_frame. simpl.
  rewrite financial_dict_Annee. simpl.
  by rewrite list_lookup_fmap, Hi.
Qed.

Lemma raw_frame_cell_metric self g m (i : nat) date :
  dates_of self !! i = Some date →
  ∃ v, cell (raw_frame self g) (label m) i = Some v
       ∧ v == shape_value m self i date
                (state_before self (dates_of self) metrics m g).
Proof.
  intros Hi. unfold cell, raw_frame. simpl.
  rewrite financial_dict_metric. simpl.
  by apply simulate_lookup.
Qed.

(** The overlay succeeds on the frame of the generator. *)
Lemma raw_frame_trends_Some self g :
  is_Some (_add_israeli_trends (raw_frame self g)).
Proof.
  unfold _add_israeli_trends. apply iterrows_trends_is_Some.
  - intros i Hi. apply elem_of_seq in Hi as [_ Hi]. simpl in Hi.
    destruct (lookup_lt_is_Some_2 (dates_of self) i Hi) as [date Hd].
    rewrite (raw_frame_cell_Annee _ _ _ _ Hd). eauto.
  - intros i col Hi Hcol. apply elem_of_seq in Hi as [_ Hi]. simpl in Hi.
    destruct (lookup_lt_is_Some_2 (dates_of self) i Hi) as [date Hd].
    pose proof adjustable_labels as Hadj.
    rewrite Forall_forall in Hadj.
    apply Hadj, list_elem_of_fmap in Hcol as (m & -> & _).
    destruct (raw_frame_cell_metric self g m i date Hd) as (v & Hv & _).
    rewrite Hv. eauto.
Qed.

(** The generator always returns a table, and that table is the overlay
    of the raw frame. *)
Lemma generate_financial_data_Some self g :
  ∃ df, (generate_financial_data self g).1 = Some df
        ∧ _add_israeli_trends (raw_frame self g) = Some df.
Proof.
  rewrite generate_financial_data_eq. simpl.
  destruct (raw_frame_trends_Some self g) as [df Hdf]. eauto.
Qed.

Lemma run_eq name g :
  run name g
  = generate_financial_data
      (mkAnalyzer name 2002 2025 4.0
         (default default_config (configs !! name))) g.
Proof. unfold run. by rewrite init_eq. Qed.

End GeneratorFacts.

(** ** Cells of the overlay's result *)

Lemma rescale_nil_fmap (o : option Q) : rescale [] <$> o = o.
Proof. by destruct o. Qed.


(** What the pass does to a cell of a row of the frame. *)
Lemma add_israeli_trends_cell df df' col (i : nat) :
  _add_israeli_trends df = Some df' →
  (i < nrows df)%nat →
  ∃ y, cell df "Annee" i = Some y
       ∧ cell df' col i = rescale (factors col y) <$> cell df col i.
Proof.
  intros Hdf Hi. eapply iterrows_trends_cell; [exact Hdf|apply NoDup_seq|].
  apply elem_of_seq. lia.
Qed.

Lemma add_israeli_trends_cell_ge df df' col (i : nat) :
  _add_israeli_trends df = Some df' →
  (nrows df ≤ i)%nat →
  cell df' col i = cell df col i.
Proof.
  intros Hdf Hi. eapply iterrows_trends_cell_other; [exact Hdf|].
  rewrite elem_of_seq. lia.
Qed.

Section GeneratedCells.
Context {G : Type} `{!NormalSource G}.
Implicit Types (self : Analyzer) (g : G).

(** A cell of the generated table: the product of the metric's shape,
    then the factors of the overlay for the year of the row. *)
Lemma generated_cell self g m (i : nat) date :
  dates_of self !! i = Some date →
  ∃ df v, (generate_financial_data self g).1 = Some df
    ∧ cell (raw_frame self g) (label m) i = Some v
    ∧ v == shape_value m self i date
             (state_before self (dates_of self) metrics m g)
    ∧ cell df (label m) i
      = Some (rescale (factors (label m) (inject_Z (year date))) v).
Proof.
  intros Hi.
  destruct (generate_financial_data_Some self g) as (df & Hgen & Hdf).
  destruct (raw_frame_cell_metric self g m i date Hi) as (v & Hv & Hshape).
  exists df, v. repeat split; try done.
  destruct (add_israeli_trends_cell _ _ (label m) i Hdf) as (y & Hy & Hcell).
  { simpl. by eapply lookup_lt_Some. }
  rewrite (raw_frame_cell_Annee _ _ _ _ Hi) in Hy. injection Hy as <-.
  by rewrite Hcell, Hv.
Qed.

End GeneratedCells.

(** ** The rows and columns of the generated table *)

Section GeneratedTable.
Context {G : Type} `{!NormalSource G}.
Implicit Types (self : Analyzer) (g : G).

(** For any analyzer the table has a row per date, the years column the
    generator wrote, the labels of [data] and columns of full length. *)
Lemma generated_table self g :
  ∃ df, (generate_financial_data self g).1 = Some df
    ∧ nrows df = length (dates_of self)
    ∧ columns df !! "Annee"
      = Some ((λ date, inject_Z (year date)) <$> dates_of self)
    ∧ dom (columns df) = list_to_set column_labels
    ∧ map_Forall (λ _ c, length c = length (dates_of self)) (columns df).
Proof.
  destruct (generate_financial_data_Some self g) as (df & Hgen & Hdf).
  exists df. split; [done|]. unfold _add_israeli_trends in Hdf.
  repeat split.
  - by rewrite (iterrows_trends_nrows _ _ _ _ Hdf).
  - rewrite (iterrows_trends_columns _ _ _ _ _ Hdf Annee_not_adjustable).
    apply financial_dict_Annee.
  - rewrite (iterrows_trends_dom _ _ _ _ Hdf). apply financial_dict_dom.
  - apply (iterrows_trends_lengths _ _ _ _ _ Hdf).
    apply financial_dict_lengths.
Qed.

End GeneratedTable.

(** For any range with [start_year <= end_year] the table has
    [end_year - start_year + 1] rows, and row [i] is the year
    [start_year + i]. *)
Lemma generated_table_rows {G : Type} `{!NormalSource G} (self : Analyzer)
    (g : G) :
  (start_year self ≤ end_year self)%Z →
  ∃ df, (generate_financial_data self g).1 = Some df
    ∧ Z.of_nat (nrows df) = (end_year self - start_year self + 1)%Z
    ∧ ∀ i : nat, (i < nrows df)%nat →
        cell df "Annee" i = Some (inject_Z (start_year self + Z.of_nat i)).
Proof.
  intros Hrange.
  destruct (generated_table self g) as (df & Hgen & Hrows & HA & _).
  unfold dates_of in Hrows. rewrite date_range_Y_length in Hrows.
  exists df. split; [done|]. split; [lia|].
  intros i Hi. unfold cell. rewrite HA. cbn [mbind option_bind].
  unfold dates_of. rewrite list_lookup_fmap, date_range_Y_lookup by lia.
  done.
Qed.

Lemma seqZ_years_lookup (i : nat) :
  (i < 24)%nat →
  (inject_Z <$> seqZ 2002 24) !! i = Some (inject_Z (2002 + Z.of_nat i)).
Proof.
  intros Hi. rewrite list_lookup_fmap, lookup_seqZ_lt by lia. done.
Qed.

Lemma seqZ_years_lookup_inv (i : nat) (y : Q) :
  (inject_Z <$> seqZ 2002 24) !! i = Some y →
  (i < 24)%nat ∧ y = inject_Z (2002 + Z.of_nat i).
Proof.
  intros Hy. assert (i < 24)%nat as Hi.
  { apply lookup_lt_Some in Hy. by rewrite length_fmap, length_seqZ in Hy. }
  split; [done|]. rewrite seqZ_years_lookup in Hy by done. by injection Hy.
Qed.

(** C2. For the fixed range 2002-2025 the generator returns exactly
    end_year - start_year + 1 = 24 records, one per calendar year: the
    years column is 2002, 2003, ..., 2025, strictly increasing by one. *)
Theorem generate_financial_data_years {G : Type} `{!NormalSource G}
    (name : string) (g : G) :
  ∃ self df,
    __init__ name = Some self
    ∧ (generate_financial_data self g).1 = Some df
    ∧ start_year self = 2002%Z ∧ end_year self = 2025%Z
    ∧ Z.of_nat (nrows df) = (end_year self - start_year self + 1)%Z
    ∧ nrows df = 24%nat
    ∧ map_Forall (λ _ c, length c = 24%nat) (columns df)
    ∧ columns df !! "Annee" = Some (inject_Z <$> seqZ 2002 24)
    ∧ (∀ i : nat, (i < 24)%nat →
         cell df "Annee" i = Some (inject_Z (2002 + Z.of_nat i)))
    ∧ (∀ (i : nat) (y y' : Q),
         cell df "Annee" i = Some y → cell df "Annee" (S i) = Some y' →
         y < y' ∧ y' == y + 1).
Proof.
  eexists. rewrite init_eq.
  set (self := mkAnalyzer _ _ _ _ _).
  destruct (generated_table self g) as (df & Hgen & Hrows & HA & _ & Hlen).
  assert (length (dates_of self) = 24%nat) as Hn by done.
  rewrite Hn in Hrows, Hlen.
  change ((λ date, inject_Z (year date)) <$> dates_of self)
    with (inject_Z <$> seqZ 2002 24) in HA.
  exists df. do 8 (split; [by rewrite ?Hrows|]). split.
  - intros i Hi. unfold cell. rewrite HA. cbn [mbind option_bind].
    by apply seqZ_years_lookup.
  - intros i y y'. unfold cell. rewrite HA. cbn [mbind option_bind].
    intros [_ ->]%seqZ_years_lookup_inv [_ ->]%seqZ_years_lookup_inv.
    split.
    + rewrite <- Zlt_Qlt. lia.
    + rewrite Nat2Z.inj_succ, <- Z.add_1_r, Z.add_assoc.
      by rewrite inject_Z_plus.
Qed.

(** C9 (as the code has it). The table has exactly 23 columns, not 20:
    the year, the fifteen demographic, revenue, expense and indicator
    columns and the seven sector investments, with one row per year. *)
Theorem generate_financial_data_columns {G : Type} `{!NormalSource G}
    (name : string) (g : G) :
  ∃ df, (run name g).1 = Some df
    ∧ dom (columns df) = list_to_set column_labels
    ∧ column_labels
      = [ "Annee"; "Population"; "Menages";
          "Recettes_Totales"; "Impots_Locaux"; "Subventions_Gouvernement";
          "Autres_Recettes";
          "Depenses_Totales"; "Fonctionnement"; "Investissement";
          "Charge_Dette"; "Personnel";
          "Epargne_Brute"; "Dette_Totale"; "Taux_Endettement";
          "Taux_Fiscalite";
          "Investissement_Technologie"; "Investissement_Tourisme";
          "Investissement_Transport"; "Investissement_Education";
          "Investissement_Securite"; "Investissement_Environnement";
          "Investissement_Culture" ]
    ∧ size (dom (columns df)) = 23%nat
    ∧ nrows df = 24%nat
    ∧ map_Forall (λ _ c, length c = 24%nat) (columns df).
Proof.
  rewrite run_eq. set (self := mkAnalyzer _ _ _ _ _).
  destruct (generated_table self g) as (df & Hgen & Hrows & _ & Hdom & Hlen).
  exists df. rewrite Hdom. by repeat split.
Qed.

(** C9, the count of the claim: the table generated for "Tel Aviv-Jaffa"
    does not have 20 columns. *)
Lemma generate_financial_data_not_20_columns :
  (λ df, (size (dom (columns df)),
          bool_decide (size (dom (columns df)) = 20%nat)))
    <$> (run (G:=unit) "Tel Aviv-Jaffa" tt).1
  = Some (23%nat, false).
Proof. by vm_compute. Qed.

(** C3, the values of the claim: with every noise factor equal to 1 the
    table returned for "Tel Aviv-Jaffa" holds 45600 for 2002, not
    12000 * 4.0 * 1.0 = 48000, and not 48000 * (1 + 0.038) for 2003. *)
Lemma tel_aviv_total_revenue_not_base :
  (df ← (run (G:=unit) "Tel Aviv-Jaffa" tt).1;
   y0 ← cell df "Annee" 0; v0 ← cell df "Recettes_Totales" 0;
   y1 ← cell df "Annee" 1; v1 ← cell df "Recettes_Totales" 1;
   Some (y0, Qeq_bool v0 (12000 * 4.0 * 1.0), Qeq_bool v0 45600,
         y1, Qeq_bool v1 (12000 * 4.0 * (1 + 0.038 * 1))))
  = Some (2002, false, true, 2003, false).
Proof. by vm_compute. Qed.

Lemma configs_tel_aviv :
  configs !! "Tel Aviv-Jaffa"
  = Some (mkConfig 460000 12000 "metropolitaine"
            ["finance"; "technologie"; "commerce"; "tourisme"; "culture"]).
Proof. reflexivity. Qed.

(** C3 (as the code has it). For "Tel Aviv-Jaffa" with every noise factor
    equal to 1, the simulator's total revenue is the budget base in
    shekels times 1.0 for 2002 and times (1 + 0.038 * 1) for 2003; the
    table the generator returns holds these values times 0.95, the
    multiplier of the 2002-2005 window of the overlay. *)
Theorem tel_aviv_total_revenue {G : Type} `{!NormalSource G} (g : G) :
  (∀ sd g0, (normal 1 sd g0).1 == 1) →
  ∃ self df raw0 raw1,
    __init__ "Tel Aviv-Jaffa" = Some self
    ∧ type (config self) = "metropolitaine"
    ∧ "technologie" ∈ specialites (config self)
    ∧ (generate_financial_data self g).1 = Some df
    ∧ cell df "Annee" 0 = Some 2002 ∧ cell df "Annee" 1 = Some 2003
    ∧ cell (raw_frame self g) "Recettes_Totales" 0 = Some raw0
    ∧ raw0 == _convert_to_shekels self (inject_Z (budget_base (config self)))
              * 1.0
    ∧ cell (raw_frame self g) "Recettes_Totales" 1 = Some raw1
    ∧ raw1 == _convert_to_shekels self (inject_Z (budget_base (config self)))
              * (1 + 0.038 * 1)
    ∧ cell df "Recettes_Totales" 0 = Some (raw0 * 0.95)
    ∧ raw0 * 0.95 == 12000 * 4.0 * 1.0 * 0.95
    ∧ cell df "Recettes_Totales" 1 = Some (raw1 * 0.95)
    ∧ raw1 * 0.95 == 12000 * 4.0 * (1 + 0.038 * 1) * 0.95.
Proof.
  intros Hnoise. eexists. rewrite init_eq, configs_tel_aviv.
  set (self := mkAnalyzer _ _ _ _ _).
  destruct (generated_cell self g Recettes_Totales 0 (mkTimestamp 2002 12 31))
    as (df & raw0 & Hgen & Hraw0 & Hshape0 & Hcell0); [done|].
  destruct (generated_cell self g Recettes_Totales 1 (mkTimestamp 2003 12 31))
    as (df' & raw1 & Hgen' & Hraw1 & Hshape1 & Hcell1); [done|].
  rewrite Hgen in Hgen'. injection Hgen' as <-.
  destruct (generated_table self g) as (df' & Hgen' & _ & HA & _).
  rewrite Hgen in Hgen'. injection Hgen' as <-.
  unfold shape_value, noise in Hshape0, Hshape1.
  cbn [noise_sd] in Hshape0, Hshape1.
  rewrite Hnoise in Hshape0, Hshape1.
  exists df, raw0, raw1.
  do 4 (split; [done || (apply (bool_decide_unpack _); by vm_compute)|]).
  split; [unfold cell; by rewrite HA|].
  split; [unfold cell; by rewrite HA|].
  split; [done|]. split; [by rewrite Hshape0|].
  split; [done|]. split; [by rewrite Hshape1|].
  split; [done|]. split; [by rewrite Hshape0|].
  split; [done|]. by rewrite Hshape1.
Qed.

(** The hypothesis of [tel_aviv_total_revenue] holds for the source whose
    samples are the mean. *)
Lemma tel_aviv_total_revenue_witness :
  ∃ self df raw0 raw1,
    __init__ "Tel Aviv-Jaffa" = Some self
    ∧ type (config self) = "metropolitaine"
    ∧ "technologie" ∈ specialites (config self)
    ∧ (generate_financial_data self tt).1 = Some df
    ∧ cell df "Annee" 0 = Some 2002 ∧ cell df "Annee" 1 = Some 2003
    ∧ cell (raw_frame self tt) "Recettes_Totales" 0 = Some raw0
    ∧ raw0 == _convert_to_shekels self (inject_Z (budget_base (config self)))
              * 1.0
    ∧ cell (raw_frame self tt) "Recettes_Totales" 1 = Some raw1
    ∧ raw1 == _convert_to_shekels self (inject_Z (budget_base (config self)))
              * (1 + 0.038 * 1)
    ∧ cell df "Recettes_Totales" 0 = Some (raw0 * 0.95)
    ∧ raw0 * 0.95 == 12000 * 4.0 * 1.0 * 0.95
    ∧ cell df "Recettes_Totales" 1 = Some (raw1 * 0.95)
    ∧ raw1 * 0.95 == 12000 * 4.0 * (1 + 0.038 * 1) * 0.95.
Proof.
  apply (tel_aviv_total_revenue (G:=unit) tt). intros sd g0. reflexivity.
Defined.



(** C6. The overlay changes only cells that a window containing the
    year of the row names.  A cell whose column is named by no such window
    is kept, a cell of a row that has no year is kept, and the fourteen
    columns no window names are the same lists afterwards; the pass adds
    and removes no row and no column. *)
Theorem add_israeli_trends_frame (df df' : DataFrame) :
  _add_israeli_trends df = Some df' →
  (∀ (i : nat) (col : string) (y : Q),
     cell df "Annee" i = Some y → col ∉ named y →
     cell df' col i = cell df col i)
  ∧ (∀ (i : nat) (col : string),
       cell df "Annee" i = None → cell df' col i = cell df col i)
  ∧ (∀ col : string,
       col ∈ [ "Annee"; "Population"; "Menages"; "Impots_Locaux";
               "Autres_Recettes"; "Fonctionnement"; "Charge_Dette";
               "Personnel"; "Epargne_Brute"; "Dette_Totale";
               "Taux_Endettement"; "Taux_Fiscalite";
               "Investissement_Education"; "Investissement_Culture" ] →
       columns df' !! col = columns df !! col)
  ∧ (∀ col : string, col ∉ adjustable →
       columns df' !! col = columns df !! col)
  ∧ nrows df' = nrows df
  ∧ dom (columns df') = dom (columns df).
Proof.
  intros Hdf.
  assert (Hrow : ∀ (i : nat) col, (nrows df ≤ i)%nat →
            cell df' col i = cell df col i).
  { intros i col Hi. by apply add_israeli_trends_cell_ge. }
  assert (Hcol : ∀ col, col ∉ adjustable →
            columns df' !! col = columns df !! col).
  { intros col Hcol. by eapply iterrows_trends_columns. }
  split; [|split; [|split; [|split; [done|split]]]].
  - intros i col y Hy Hnamed.
    destruct (decide (i < nrows df)%nat) as [Hi|Hi]; [|apply Hrow; lia].
    destruct (add_israeli_trends_cell _ _ col i Hdf Hi) as (y' & Hy' & ->).
    rewrite Hy in Hy'. injection Hy' as <-.
    by rewrite (factors_not_named _ _ Hnamed), rescale_nil_fmap.
  - intros i col Hy.
    destruct (decide (i < nrows df)%nat) as [Hi|Hi]; [|apply Hrow; lia].
    destruct (add_israeli_trends_cell _ _ col i Hdf Hi) as (y' & Hy' & _).
    by rewrite Hy in Hy'.
  - intros col Hin. apply Hcol. intros Hadj.
    revert Hin. apply (bool_decide_unpack _).
    repeat (apply elem_of_cons in Hadj as [->|Hadj]; [by vm_compute|]).
    by apply elem_of_nil in Hadj.
  - by eapply iterrows_trends_nrows.
  - by eapply iterrows_trends_dom.
Qed.

(** [add_israeli_trends_frame] on the one-row frame of the year 2008: the
    population is kept while the total revenue is rescaled. *)
Lemma add_israeli_trends_frame_witness :
  ∃ df',
    _add_israeli_trends frame_2008 = Some df'
    ∧ columns df' !! "Population" = columns frame_2008 !! "Population"
    ∧ cell df' "Population" 0 = Some 460000
    ∧ nrows df' = 1%nat.
Proof.
  destruct (_add_israeli_trends frame_2008) as [df'|] eqn:Hdf;
    [|by vm_compute in Hdf].
  exists df'. split; [done|].
  destruct (add_israeli_trends_frame frame_2008 df' Hdf)
    as (Hcell & _ & Hcols & _ & Hrows & _).
  split; [apply Hcols; apply (bool_decide_unpack _); by vm_compute|].
  split; [|done].
  rewrite (Hcell 0%nat "Population" 2008); [done|done|].
  apply (bool_decide_unpack _). by vm_compute.
Defined.

(** C4, against the claim: "Netanya" has no tag "technologie" and its
    technology multiplier is 0.7, not 1.0. *)
Lemma technology_multiplier_absent_not_1 :
  (λ self, (has_specialite self "technologie",
            technology_multiplier self,
            Qeq_bool (technology_multiplier self) 1.0))
    <$> __init__ "Netanya"
  = Some (false, 0.7, false).
Proof. by vm_compute. Qed.

(** C4 (as the code has it). For a sector investment with a specialty
    tag, the multiplier is above 1 when the tag is present.  When the tag
    is absent it is 1.0 for transport and education, 0.7 for technology,
    0.8 for tourism and culture and 0.9 for environment; for security it
    is 1.0 unless the type is capitale or metropolitaine, where it is 1.6
    without the tag.  With the tag it is never below its value without. *)
Theorem specialty_multiplier_by_tag (self : Analyzer) (m : Metric)
    (tag : string) :
  specialty_tag m = Some tag →
  (tag ∈ specialites (config self) → 1 < specialty_multiplier m self)
  ∧ (tag ∉ specialites (config self) →
       specialty_multiplier m self
       = match m with
         | Investissement_Technologie => 0.7
         | Investissement_Tourisme => 0.8
         | Investissement_Environnement => 0.9
         | Investissement_Culture => 0.8
         | Investissement_Securite =>
             if bool_decide
                  (type (config self) ∈ ["capitale"; "metropolitaine"])
             then 1.6 else 1.0
         | _ => 1.0
         end)
  ∧ (∀ self' : Analyzer,
       tag ∈ specialites (config self) →
       tag ∉ specialites (config self') →
       specialty_multiplier m self' <= specialty_multiplier m self
       ∧ (m ≠ Investissement_Securite →
            specialty_multiplier m self' < specialty_multiplier m self)).
Proof.
  intros Htag.
  destruct m; try discriminate Htag; injection Htag as <-;
    unfold specialty_multiplier, technology_multiplier, tourism_multiplier,
      transport_multiplier, education_multiplier, security_multiplier,
      environment_multiplier, culture_multiplier, has_specialite;
    (split; [|split]).
  all: try (intros Hin; rewrite (bool_decide_eq_true_2 _ Hin); done).
  all: try (intros Hnot; rewrite (bool_decide_eq_false_2 _ Hnot); done).
  all: intros self' Hin Hnot;
    rewrite (bool_decide_eq_true_2 _ Hin), (bool_decide_eq_false_2 _ Hnot);
    try done.
  cbn [orb]. case_bool_decide; by split.
Qed.

(** [specialty_multiplier_by_tag] on the default profile, which has no
    tag "technologie". *)
Lemma specialty_multiplier_by_tag_witness :
  specialty_multiplier Investissement_Technologie default_analyzer = 0.7.
Proof.
  destruct (specialty_multiplier_by_tag default_analyzer
              Investissement_Technologie "technologie") as (_ & Habs & _).
  - reflexivity.
  - apply Habs. apply (bool_decide_unpack _). by vm_compute.
Defined.




(** ** The shape of the simulated values *)

Lemma growth_linear_in_index m self :
  (∃ rate, growth m self = LinearInIndex rate)
  ↔ m ∉ [ Subventions_Gouvernement; Charge_Dette; Epargne_Brute;
          Dette_Totale; Taux_Endettement; Taux_Fiscalite ].
Proof.
  split.
  - intros [rate Hrate] Hin.
    repeat (apply elem_of_cons in Hin as [->|Hin]; [discriminate Hrate|]).
    by apply elem_of_nil in Hin.
  - intros Hnot.
    destruct m; simpl; eauto; exfalso; apply Hnot;
      apply (bool_decide_unpack _); by vm_compute.
Qed.

Lemma noise_sd_range m sd : noise_sd m = Some sd → 0.03 <= sd ∧ sd <= 0.20.
Proof. destruct m; intros [= <-]; by split. Qed.

Lemma noise_sd_None m : noise_sd m = None ↔ m = Population ∨ m = Menages.
Proof.
  split.
  - destruct m; intros Hsd; try discriminate Hsd; eauto.
  - by intros [-> | ->].
Qed.

Lemma lookup_year_no_event (evs : list (list Z * Q)) (y : Z) :
  (∀ ys k, (ys, k) ∈ evs → y ∉ ys) → lookup_year evs y = 1.0.
Proof.
  induction evs as [|[ys k] evs IH]; intros Hev; [done|].
  simpl. unfold year_in. rewrite bool_decide_eq_false_2.
  - apply IH. intros ys' k' Hin. apply (Hev ys' k'). by right.
  - apply (Hev ys k). left.
Qed.

(** C1, against the claim: the population is computed without a draw (the
    generator keeps its three samples, the total revenue uses them up),
    the total debt has no growth in the offset (with every noise factor 1
    it is the same at offsets 0, 1 and 3), and the government grants do
    not grow before 2010 (the same at offsets 0 and 7). *)
Lemma population_no_draw_debt_no_growth :
  (λ self,
     let dates := dates_of self in
     ((simulate (G:=list Q) Population self dates [1; 1; 1]).2,
      (simulate (G:=list Q) Recettes_Totales self dates [1; 1; 1]).2,
      Qred <$> take 4 (simulate (G:=unit) Dette_Totale self dates tt).1,
      (λ c, (Qred <$> c !! 0%nat, Qred <$> c !! 7%nat))
        (simulate (G:=unit) Subventions_Gouvernement self dates tt).1))
    <$> __init__ "Tel Aviv-Jaffa"
  = Some ([1; 1; 1], [], [36000; 36000; 36000; 36000],
          (Some 16800, Some 16800)).
Proof. by vm_compute. Qed.

(** C1 (as the code has it). Before the overlay, the value of a metric at
    offset [i] is base * growth * event-year multiplier * specialty
    multiplier * noise, and the returned table holds it times the
    overlay's factors for the year.  The growth factor is 1 + rate * i
    for every metric but six: the total debt has none, and the government
    grants, debt charges, gross savings, debt ratio and tax rate grow in
    the calendar year from 2010 (2005 for the debt charges) on.  The
    noise factor is a draw of [normal 1 sd] with 0.03 <= sd <= 0.20 for
    every metric but the population and the households, which are
    computed without a draw.  The event-year multiplier is 1.0 on a year
    that is in none of the metric's lists. *)
Theorem simulate_shape {G : Type} `{!NormalSource G} (self : Analyzer)
    (g : G) (m : Metric) (i : nat) (date : Timestamp) :
  dates_of self !! i = Some date →
  let entry := state_before self (dates_of self) metrics m g in
  ∃ df v,
    (generate_financial_data self g).1 = Some df
    ∧ cell (raw_frame self g) (label m) i = Some v
    ∧ v == base m self
           * growth_factor (growth m self) i (year date)
           * event_year_multiplier m (year date)
           * specialty_multiplier m self
           * noise m i entry
    ∧ cell df (label m) i
      = Some (rescale (factors (label m) (inject_Z (year date))) v)
    ∧ ((∃ rate, growth m self = LinearInIndex rate)
       ↔ m ∉ [ Subventions_Gouvernement; Charge_Dette; Epargne_Brute;
               Dette_Totale; Taux_Endettement; Taux_Fiscalite ])
    ∧ (growth m self = NoGrowth ↔ m = Dette_Totale)
    ∧ (noise_sd m = None ↔ m = Population ∨ m = Menages)
    ∧ (noise_sd m = None →
         noise m i entry = 1
         ∧ (simulate m self (dates_of self) entry).2 = entry)
    ∧ (∀ sd, noise_sd m = Some sd →
         0.03 <= sd ∧ sd <= 0.20
         ∧ noise m i entry = (normal 1 sd (after_draws sd i entry)).1
         ∧ (simulate m self (dates_of self) entry).2
           = after_draws sd (length (dates_of self)) entry)
    ∧ ((∀ ys k, (ys, k) ∈ event_years m → year date ∉ ys) →
         event_year_multiplier m (year date) = 1.0).
Proof.
  intros Hi entry.
  destruct (generated_cell self g m i date Hi)
    as (df & v & Hgen & Hraw & Hshape & Hcell).
  exists df, v.
  do 4 (split; [done|]).
  split; [apply growth_linear_in_index|].
  split; [split; [by destruct m|by intros ->]|].
  split; [apply noise_sd_None|].
  split; [|split].
  - intros Hsd. unfold noise. rewrite simulate_state, Hsd. done.
  - intros sd Hsd. destruct (noise_sd_range m sd Hsd) as [Hlo Hhi].
    unfold noise. rewrite simulate_state, Hsd. done.
  - apply lookup_year_no_event.
Qed.

(** [simulate_shape] on the default profile, for the total revenue of
    2003 with every noise factor equal to 1. *)
Lemma simulate_shape_witness :
  ∃ df v,
    (generate_financial_data (G:=unit) default_analyzer tt).1 = Some df
    ∧ cell (raw_frame default_analyzer tt) "Recettes_Totales" 1 = Some v
    ∧ v == 800 * 4.0 * (1 + 0.035 * 1)
    ∧ cell df "Recettes_Totales" 1 = Some (v * 0.95).
Proof.
  destruct (simulate_shape (G:=unit) default_analyzer tt Recettes_Totales 1
              (mkTimestamp 2003 12 31))
    as (df & v & Hgen & Hraw & Hshape & Hcell & _); [done|].
  exists df, v. do 2 (split; [done|]). split; [|done].
  rewrite Hshape. by vm_compute.
Defined.

(** * Further properties of the code *)

(** ** When the overlay raises *)

Lemma mul_all_cell_is_Some i adj df df' col j :
  mul_all i adj df = Some df' →
  is_Some (cell df' col j) ↔ is_Some (cell df col j).
Proof.
  intros Hm. rewrite (mul_all_cell _ _ _ _ col j Hm).
  case_decide; [|done]. by rewrite fmap_is_Some.
Qed.

(** A list of updates succeeds exactly when the row has a value in every
    column the list names. *)
Lemma mul_all_is_Some_iff i adj df :
  is_Some (mul_all i adj df)
  ↔ ∀ col, col ∈ adj.*1 → is_Some (cell df col i).
Proof.
  split; [|apply mul_all_is_Some].
  revert df. induction adj as [|[col k] adj IH]; intros df [df' Hm] col' Hin.
  { by apply elem_of_nil in Hin. }
  simpl in Hm.
  destruct (loc_mul i col k df) as [df1|] eqn:E; [|done]. simpl in Hm.
  rewrite fmap_cons in Hin. apply elem_of_cons in Hin as [->|Hin].
  - apply loc_mul_Some in E as (c & v & Hc & Hv & _).
    unfold cell. cbn [fst]. rewrite Hc. simpl. eauto.
  - assert (is_Some (cell df1 col' i)) as Hsome by (apply IH; eauto).
    rewrite (loc_mul_cell _ _ _ _ _ col' i E) in Hsome.
    case_decide; [|done]. by rewrite fmap_is_Some in Hsome.
Qed.

Lemma iterrows_trends_is_Some_iff snapshot labels df :
  is_Some (iterrows trends_body snapshot labels df)
  ↔ ∀ i, i ∈ labels →
      ∃ y, cell snapshot "Annee" i = Some y
           ∧ ∀ col, col ∈ named y → is_Some (cell df col i).
Proof.
  revert df. induction labels as [|i labels IH]; intros df.
  { split; [intros _ i Hi; by apply elem_of_nil in Hi|simpl; eauto]. }
  simpl. rewrite trends_body_table. split.
  - intros [df' Hit] j Hj.
    destruct (cell snapshot "Annee" i) as [y|] eqn:Hy; [|done].
    cbn [mbind option_bind] in Hit.
    destruct (mul_all i (adjustments_of_year y) df) as [df1|] eqn:Hm;
      [|done].
    cbn [mbind option_bind] in Hit.
    apply elem_of_cons in Hj as [->|Hj].
    + exists y. split; [done|].
      apply mul_all_is_Some_iff. by rewrite Hm.
    + destruct (proj1 (IH df1) (ex_intro _ df' Hit) j Hj) as (y' & Hy' & Hc).
      exists y'. split; [done|]. intros col Hcol.
      apply (mul_all_cell_is_Some _ _ _ _ col j Hm). by apply Hc.
  - intros Hrows.
    destruct (Hrows i) as (y & Hy & Hcells); [left|].
    rewrite Hy. cbn [mbind option_bind].
    destruct (proj2 (mul_all_is_Some_iff i (adjustments_of_year y) df) Hcells)
      as [df1 Hm].
    rewrite Hm. cbn [mbind option_bind]. apply IH.
    intros j Hj. destruct (Hrows j) as (y' & Hy' & Hc); [by right|].
    exists y'. split; [done|]. intros col Hcol.
    apply (mul_all_cell_is_Some _ _ _ _ col j Hm). by apply Hc.
Qed.

Lemma add_israeli_trends_rows_iff (df : DataFrame) :
  is_Some (_add_israeli_trends df)
  ↔ ∀ i : nat, (i < nrows df)%nat →
      ∃ y, cell df "Annee" i = Some y
           ∧ ∀ col, col ∈ named y → is_Some (cell df col i).
Proof.
  unfold _add_israeli_trends. rewrite iterrows_trends_is_Some_iff.
  split; intros Hrows i Hi; apply Hrows.
  - apply elem_of_seq. lia.
  - apply elem_of_seq in Hi. lia.
Qed.

(** The overlay raises no [KeyError] exactly when every row of the frame
    has a year and a value in each column that a window containing that
    year names; a frame without rows always passes, and a row without a
    year or without one of those values makes the pass fail. *)
Theorem add_israeli_trends_is_Some_iff (df : DataFrame) :
  (is_Some (_add_israeli_trends df)
   ↔ ∀ i : nat, (i < nrows df)%nat →
       ∃ y, cell df "Annee" i = Some y
            ∧ ∀ col, col ∈ named y → is_Some (cell df col i))
  ∧ (nrows df = 0%nat → _add_israeli_trends df = Some df)
  ∧ (∀ i : nat, (i < nrows df)%nat → cell df "Annee" i = None →
       _add_israeli_trends df = None)
  ∧ (∀ (i : nat) (y : Q) (col : string),
       (i < nrows df)%nat → cell df "Annee" i = Some y →
       col ∈ named y → cell df col i = None →
       _add_israeli_trends df = None).
Proof.
  split; [apply add_israeli_trends_rows_iff|]. split; [|split].
  - intros Hrows. unfold _add_israeli_trends. by rewrite Hrows.
  - intros i Hi Hy. apply eq_None_not_Some. intros Hsome.
    destruct (proj1 (add_israeli_trends_rows_iff df) Hsome i Hi)
      as (y & Hy' & _).
    by rewrite Hy in Hy'.
  - intros i y col Hi Hy Hcol Hcell. apply eq_None_not_Some. intros Hsome.
    destruct (proj1 (add_israeli_trends_rows_iff df) Hsome i Hi)
      as (y' & Hy' & Hcells).
    rewrite Hy in Hy'. injection Hy' as <-.
    destruct (Hcells col Hcol) as [v Hv]. by rewrite Hcell in Hv.
Qed.

(** ** The overlay applied again *)

Lemma rescale_app (ks1 ks2 : list Q) (v : Q) :
  rescale (ks1 ++ ks2) v = rescale ks2 (rescale ks1 v).
Proof. unfold rescale. by rewrite foldl_app. Qed.

Lemma add_israeli_trends_Annee df df' :
  _add_israeli_trends df = Some df' →
  columns df' !! "Annee" = columns df !! "Annee".
Proof.
  intros Hdf. eapply iterrows_trends_columns; [exact Hdf|].
  apply Annee_not_adjustable.
Qed.

(** The overlay is not idempotent, and it can always be applied again:
    on its own result it succeeds, and every cell of a row has then
    received the factors of its column twice. *)
Theorem add_israeli_trends_twice (df df1 : DataFrame) :
  _add_israeli_trends df = Some df1 →
  ∃ df2,
    _add_israeli_trends df1 = Some df2
    ∧ ∀ (col : string) (i : nat), (i < nrows df)%nat →
        ∃ y, cell df "Annee" i = Some y
             ∧ cell df1 col i = rescale (factors col y) <$> cell df col i
             ∧ cell df2 col i
               = rescale (factors col y ++ factors col y) <$> cell df col i.
Proof.
  intros Hdf.
  assert (nrows df1 = nrows df) as Hrows by (by eapply iterrows_trends_nrows).
  assert (∀ i, cell df1 "Annee" i = cell df "Annee" i) as HA.
  { intros i. unfold cell. by rewrite (add_israeli_trends_Annee _ _ Hdf). }
  destruct (proj2 (add_israeli_trends_rows_iff df1)) as [df2 Hdf2].
  { intros i Hi. rewrite Hrows in Hi.
    destruct (proj1 (add_israeli_trends_rows_iff df)
                (ex_intro _ df1 Hdf) i Hi) as (y & Hy & Hcells).
    exists y. rewrite HA. split; [done|]. intros col Hcol.
    destruct (add_israeli_trends_cell _ _ col i Hdf Hi) as (y' & Hy' & ->).
    rewrite fmap_is_Some. by apply Hcells. }
  exists df2. split; [done|]. intros col i Hi.
  destruct (add_israeli_trends_cell _ _ col i Hdf Hi) as (y & Hy & Hc1).
  destruct (add_israeli_trends_cell _ _ col i Hdf2) as (y' & Hy' & Hc2);
    [by rewrite Hrows|].
  rewrite HA, Hy in Hy'. injection Hy' as <-.
  exists y. do 2 (split; [done|]).
  rewrite Hc2, Hc1. destruct (cell df col i); [|done].
  simpl. by rewrite rescale_app.
Qed.

(** [add_israeli_trends_twice] on the one-row frame of the year 2008: the
    total revenue is rescaled by 1.08 * 0.92 once more. *)
Lemma add_israeli_trends_twice_witness :
  ∃ df1 df2,
    _add_israeli_trends frame_2008 = Some df1
    ∧ _add_israeli_trends df1 = Some df2
    ∧ cell df1 "Recettes_Totales" 0 = Some (1000 * 1.08 * 0.92)
    ∧ cell df2 "Recettes_Totales" 0
      = Some (1000 * 1.08 * 0.92 * 1.08 * 0.92).
Proof.
  destruct (_add_israeli_trends frame_2008) as [df1|] eqn:Hdf;
    [|by vm_compute in Hdf].
  destruct (add_israeli_trends_twice frame_2008 df1 Hdf) as (df2 & Hdf2 & Hc).
  exists df1, df2. do 2 (split; [done|]).
  destruct (Hc "Recettes_Totales" 0%nat) as (y & Hy & Hc1 & Hc2);
    [simpl; lia|].
  injection Hy as <-. by split.
Defined.

(** The overlay keeps a frame rectangular: when every column has one
    value per row before the pass, so it has after it, with the same
    rows and the same labels. *)
Theorem add_israeli_trends_rectangular (df df' : DataFrame) :
  _add_israeli_trends df = Some df' →
  map_Forall (λ _ c, length c = nrows df) (columns df) →
  map_Forall (λ _ c, length c = nrows df') (columns df')
  ∧ nrows df' = nrows df
  ∧ dom (columns df') = dom (columns df).
Proof.
  intros Hdf Hlen.
  assert (nrows df' = nrows df) as Hrows by (by eapply iterrows_trends_nrows).
  rewrite Hrows. split; [|split; [done|by eapply iterrows_trends_dom]].
  by eapply iterrows_trends_lengths.
Qed.

Lemma add_israeli_trends_rectangular_witness :
  ∃ df',
    _add_israeli_trends frame_2008 = Some df'
    ∧ map_Forall (λ _ c, length c = 1%nat) (columns df').
Proof.
  destruct (_add_israeli_trends frame_2008) as [df'|] eqn:Hdf;
    [|by vm_compute in Hdf].
  exists df'. split; [done|].
  destruct (add_israeli_trends_rectangular frame_2008 df' Hdf)
    as (Hlen & Hrows & _).
  - apply (bool_decide_unpack _). by vm_compute.
  - by rewrite Hrows in Hlen.
Defined.

(** ** What a run draws *)

Lemma after_draws_0 {G : Type} `{!NormalSource G} sd (g : G) :
  after_draws sd 0 g = g.
Proof. reflexivity. Qed.

(** The tape source gives up one sample per draw. *)
Lemma after_draws_tape sd (k : nat) (tape : list Q) :
  after_draws sd k tape = drop k tape.
Proof.
  revert tape. induction k as [|k IH]; intros tape; [done|].
  rewrite after_draws_S. destruct tape as [|z tape]; simpl.
  - by rewrite IH, drop_nil.
  - apply IH.
Qed.

Section Draws.
Context {G : Type} `{!NormalSource G}.
Implicit Types (self : Analyzer) (g : G).

Lemma foldl_fill_snd self dates ms (d : gmap string (list Q)) g :
  (foldl (fill self dates) (d, g) ms).2
  = foldl (draws_of (length dates)) g ms.
Proof.
  revert d g. induction ms as [|m ms IH]; intros d g; [done|].
  simpl. rewrite fill_pair, IH. f_equal. apply simulate_state.
Qed.

Lemma generate_financial_data_snd self g :
  (generate_financial_data self g).2
  = foldl (draws_of (length (dates_of self))) g metrics.
Proof.
  rewrite generate_financial_data_eq. cbn [snd].
  rewrite financial_dict_fold. unfold dates_of.
  exact (foldl_fill_snd self _ metrics _ g).
Qed.

End Draws.

Lemma foldl_draws_of_tape (n : nat) (ms : list Metric) (tape : list Q) :
  foldl (draws_of n) tape ms
  = drop (n * length (filter (λ m, is_Some (noise_sd m)) ms)) tape.
Proof.
  revert tape. induction ms as [|m ms IH]; intros tape.
  { simpl. by rewrite Nat.mul_0_r. }
  simpl. rewrite IH, filter_cons. unfold draws_of.
  destruct (noise_sd m) as [sd|] eqn:Hsd.
  - rewrite decide_True by eauto. rewrite after_draws_tape, drop_drop.
    f_equal. simpl. lia.
  - rewrite decide_False; [done|]. by intros [? ?].
Qed.

(** A run draws metric by metric, in the order of the columns: for each
    metric with noise it makes one draw per date with the metric's scale
    before the next metric starts, and the two demographic metrics draw
    nothing.  On a tape of samples a run for the years 2002-2025 uses up
    exactly the first 480 samples (20 metrics, 24 dates). *)
Theorem generate_financial_data_draws :
  (∀ (G : Type) (src : NormalSource G) (self : Analyzer) (g : G),
     (generate_financial_data self g).2
     = foldl (draws_of (length (dates_of self))) g metrics)
  ∧ (∀ (name : string) (tape : list Q),
       (run name tape).2 = drop 480 tape).
Proof.
  split.
  - intros G src self g. apply generate_financial_data_snd.
  - intros name tape.
    rewrite run_eq, generate_financial_data_snd, foldl_draws_of_tape.
    done.
Qed.

(** ** Other year ranges *)

(** For any range of years that pandas can represent (1678 to 2261) with
    [start_year <= end_year], the generator returns a table of
    [end_year - start_year + 1] rows whose row [i] is the year
    [start_year + i], with the 23 columns, each of full length. *)
Theorem generate_financial_data_any_range {G : Type} `{!NormalSource G}
    (self : Analyzer) (g : G) :
  (1678 ≤ start_year self)%Z →
  (start_year self ≤ end_year self)%Z →
  (end_year self ≤ 2261)%Z →
  ∃ df,
    (generate_financial_data self g).1 = Some df
    ∧ Z.of_nat (nrows df) = (end_year self - start_year self + 1)%Z
    ∧ (∀ i : nat, (i < nrows df)%nat →
         cell df "Annee" i = Some (inject_Z (start_year self + Z.of_nat i)))
    ∧ dom (columns df) = list_to_set column_labels
    ∧ map_Forall (λ _ c, length c = nrows df) (columns df).
Proof.
  intros _ Hrange _.
  destruct (generated_table self g) as (df & Hgen & Hrows & HA & Hdom & Hlen).
  rewrite <- Hrows in Hlen.
  unfold dates_of in Hrows. rewrite date_range_Y_length in Hrows.
  exists df. split; [done|]. split; [lia|]. split; [|done].
  intros i Hi. unfold cell. rewrite HA. cbn [mbind option_bind].
  unfold dates_of. rewrite list_lookup_fmap, date_range_Y_lookup by lia.
  done.
Qed.

(** [generate_financial_data_any_range] for the range 2010-2012. *)
Lemma generate_financial_data_any_range_witness :
  ∃ df,
    (generate_financial_data (G:=unit)
       (mkAnalyzer "Eilat" 2010 2012 4.0 default_config) tt).1 = Some df
    ∧ Z.of_nat (nrows df) = 3%Z
    ∧ cell df "Annee" 2 = Some 2012.
Proof.
  destruct (generate_financial_data_any_range (G:=unit)
              (mkAnalyzer "Eilat" 2010 2012 4.0 default_config) tt)
    as (df & Hgen & Hrows & Hyears & _); [simpl; lia..|].
  exists df. do 2 (split; [done|]).
  apply (Hyears 2%nat). simpl in Hrows. lia.
Defined.

(** A range that ends before it starts is not rejected: the generator
    returns a table without rows that has all 23 columns, and it makes
    no draw.  The report then raises on that table. *)
Theorem generate_financial_data_empty_range {G : Type} `{!NormalSource G}
    (self : Analyzer) (g : G) :
  (1678 ≤ end_year self)%Z →
  (end_year self < start_year self)%Z →
  (start_year self ≤ 2261)%Z →
  ∃ df,
    generate_financial_data self g = (Some df, g)
    ∧ nrows df = 0%nat
    ∧ dom (columns df) = list_to_set column_labels
    ∧ map_Forall (λ _ c, c = []) (columns df)
    ∧ _generate_financial_insights self df = None.
Proof.
  intros _ Hrange _.
  assert (dates_of self = []) as Hdates.
  { unfold dates_of, date_range_Y, seqZ.
    by replace (Z.to_nat (end_year self - start_year self + 1)) with 0%nat
      by lia. }
  destruct (generated_table self g) as (df & Hgen & Hrows & _ & Hdom & Hlen).
  rewrite Hdates in Hrows, Hlen.
  assert (map_Forall (λ _ c, c = []) (columns df)) as Hnil.
  { intros col c Hc. apply nil_length_inv. exact (Hlen col c Hc). }
  exists df. split; [|split; [done|split; [done|split; [done|]]]].
  - rewrite (surjective_pairing (generate_financial_data self g)).
    by rewrite Hgen, generate_financial_data_snd, Hdates.
  - unfold _generate_financial_insights.
    destruct (columns df !! "Recettes_Totales") as [c|] eqn:Hc; [|done].
    rewrite (Hnil _ _ Hc). cbn [mbind option_bind].
    destruct (columns df !! "Depenses_Totales"); [|done].
    destruct (columns df !! "Epargne_Brute"); [|done].
    by destruct (columns df !! "Dette_Totale").
Qed.

(** [generate_financial_data_empty_range] for the range 2025-2002. *)
Lemma generate_financial_data_empty_range_witness :
  ∃ df,
    generate_financial_data (G:=list Q)
      (mkAnalyzer "Eilat" 2025 2002 4.0 default_config) [1; 2; 3]
    = (Some df, [1; 2; 3])
    ∧ nrows df = 0%nat
    ∧ columns df !! "Recettes_Totales" = Some [].
Proof.
  destruct (generate_financial_data_empty_range (G:=list Q)
              (mkAnalyzer "Eilat" 2025 2002 4.0 default_config) [1; 2; 3])
    as (df & Hgen & Hrows & Hdom & Hnil & _); [simpl; lia..|].
  exists df. do 2 (split; [done|]).
  destruct (columns df !! "Recettes_Totales") as [c|] eqn:Hc.
  - by rewrite (Hnil _ _ Hc).
  - apply (not_elem_of_dom (D:=gset string)) in Hc. rewrite Hdom in Hc.
    exfalso. apply Hc. apply (bool_decide_unpack _). by vm_compute.
Defined.

(** ** Signs *)

Lemma idx_nonneg (i : nat) : 0 <= idx i.
Proof. unfold idx. rewrite <- (Zle_Qle 0). lia. Qed.


Lemma rescale_proper (ks : list Q) (a b : Q) :
  a == b → rescale ks a == rescale ks b.
Proof.
  revert a b. induction ks as [|k ks IH]; intros a b Hab; [done|].
  rewrite !rescale_cons. apply IH. by rewrite Hab.
Qed.

(** Rescaling a product rescales its first factor. *)
Lemma rescale_scale (ks : list Q) (a b : Q) :
  rescale ks (a * b) == rescale ks a * b.
Proof.
  revert a. induction ks as [|k ks IH]; intros a; [done|].
  rewrite !rescale_cons, <- IH. apply rescale_proper. ring.
Qed.

Lemma rescale_pos (ks : list Q) (v : Q) :
  Forall (λ k, 0 < k) ks → 0 < v → 0 < rescale ks v.
Proof.
  intros Hks. revert v. induction Hks as [|k ks Hk _ IH]; intros v Hv; [done|].
  rewrite rescale_cons. apply IH. by apply Qmult_lt_0_compat.
Qed.

Lemma windows_positive :
  Forall (λ a : string * Q, 0 < a.2) (w ← windows; adjustments w).
Proof. repeat (constructor; [done|]). constructor. Qed.

Lemma factors_positive col year : Forall (λ k, 0 < k) (factors col year).
Proof.
  apply Forall_forall. intros k Hk. unfold factors in Hk.
  apply list_elem_of_fmap in Hk as ([c k'] & -> & Hin).
  apply list_elem_of_filter in Hin as [_ Hin].
  apply (adjustments_of_year_subseteq year) in Hin.
  pose proof windows_positive as Hpos. rewrite Forall_forall in Hpos.
  exact (Hpos _ Hin).
Qed.

Lemma lookup_year_pos (evs : list (list Z * Q)) (y : Z) :
  Forall (λ e, 0 < e.2) evs → 0 < lookup_year evs y.
Proof.
  induction 1 as [|[ys k] evs Hk _ IH]; simpl; [done|].
  by destruct (year_in y ys).
Qed.

Lemma event_year_multiplier_pos m y : 0 < event_year_multiplier m y.
Proof.
  apply lookup_year_pos. destruct m; simpl; repeat constructor; done.
Qed.

Lemma specialty_multiplier_pos m self : 0 < specialty_multiplier m self.
Proof.
  destruct m; simpl; try done;
    unfold technology_multiplier, tourism_multiplier, transport_multiplier,
      education_multiplier, security_multiplier, environment_multiplier,
      culture_multiplier;
    by match goal with |- context [if ?b then _ else _] => destruct b end.
Qed.

Lemma population_growth_rate_bounds self :
  0.018 <= population_growth_rate self ∧ population_growth_rate self <= 0.025.
Proof.
  unfold population_growth_rate.
  repeat match goal with
  | |- context [if ?b then _ else _] => destruct b
  end; by split.
Qed.

Lemma total_revenue_growth_rate_pos self :
  0 < total_revenue_growth_rate self.
Proof.
  unfold total_revenue_growth_rate.
  repeat match goal with
  | |- context [if ?b then _ else _] => destruct b
  end; done.
Qed.

Lemma base_pos m self :
  (0 < population_base (config self))%Z →
  (0 < budget_base (config self))%Z →
  0 < eur_to_ils self →
  0 < base m self.
Proof.
  intros Hpop Hbud Heur.
  rewrite (Zlt_Qlt 0) in Hpop, Hbud.
  destruct m; unfold base, _convert_to_shekels, Qdiv;
    repeat first [ done | apply Qmult_lt_0_compat | apply Qinv_lt_0_compat ].
Qed.

(** The growth factor is positive up to the year 2093, where the debt
    ratio's [1 - 0.012 * (year - 2010)] reaches zero. *)
Lemma growth_factor_pos m self (i : nat) (y : Z) :
  (y ≤ 2093)%Z → 0 < growth_factor (growth m self) i y.
Proof.
  intros Hy. pose proof (idx_nonneg i) as Hi.
  pose proof (population_growth_rate_bounds self) as [Hp _].
  pose proof (total_revenue_growth_rate_pos self) as Hr.
  destruct m; unfold growth, growth_factor; try done;
    try case_bool_decide; try done;
    try match goal with
    | H : (?since ≤ y)%Z |- context [inject_Z (y - ?since)] =>
        assert (0 <= inject_Z (y - since)) by (rewrite <- (Zle_Qle 0); lia);
        try assert (inject_Z (y - since) <= 83)
          by (rewrite <- (Zle_Qle _ 83); lia)
    end;
    nra.
Qed.

Lemma configs_positive :
  map_Forall (λ _ cfg,
      (0 < population_base cfg)%Z ∧ (0 < budget_base cfg)%Z) configs.
Proof. apply (bool_decide_unpack _). by vm_compute. Qed.

Lemma resolved_config_positive (name : string) :
  (0 < population_base (default default_config (configs !! name)))%Z
  ∧ (0 < budget_base (default default_config (configs !! name)))%Z.
Proof.
  destruct (configs !! name) as [cfg|] eqn:E; simpl; [|done].
  exact (configs_positive name cfg E).
Qed.

(** A value of the returned table is its noise draw times a positive
    coefficient. *)
Lemma generated_cell_coefficient {G : Type} `{!NormalSource G}
    (name : string) (g : G) (m : Metric) (i : nat) :
  (i < 24)%nat →
  ∃ self df v K,
    __init__ name = Some self
    ∧ (generate_financial_data self g).1 = Some df
    ∧ cell df (label m) i = Some v
    ∧ 0 < K
    ∧ v == K * noise m i (state_before self (dates_of self) metrics m g).
Proof.
  intros Hi. eexists. rewrite init_eq.
  set (self := mkAnalyzer _ _ _ _ _).
  set (date := mkTimestamp (2002 + Z.of_nat i) 12 31).
  assert (dates_of self !! i = Some date) as Hdate.
  { apply date_range_Y_lookup. simpl. lia. }
  destruct (generated_cell self g m i date Hdate)
    as (df & v & Hgen & _ & Hshape & Hcell).
  destruct (resolved_config_positive name) as [Hpop Hbud].
  set (ks := factors (label m) (inject_Z (year date))) in Hcell.
  set (C := base m self * growth_factor (growth m self) i (year date)
            * event_year_multiplier m (year date)
            * specialty_multiplier m self).
  assert (0 < C) as HC.
  { unfold C. repeat apply Qmult_lt_0_compat.
    - by apply base_pos.
    - apply growth_factor_pos. simpl. lia.
    - apply event_year_multiplier_pos.
    - apply specialty_multiplier_pos. }
  exists df, (rescale ks v), (rescale ks C).
  do 3 (split; [done|]).
  split; [apply rescale_pos; [apply factors_positive|done]|].
  rewrite <- rescale_scale. apply rescale_proper. exact Hshape.
Qed.

(** Every value of the returned table is a positive multiple of its noise
    draw: nothing is clamped, so a value has the sign of its draw. *)
Theorem generated_cell_sign {G : Type} `{!NormalSource G} (name : string)
    (g : G) (m : Metric) (i : nat) :
  (i < 24)%nat →
  ∃ self df v K,
    __init__ name = Some self
    ∧ (generate_financial_data self g).1 = Some df
    ∧ cell df (label m) i = Some v
    ∧ 0 < K
    ∧ let d := noise m i (state_before self (dates_of self) metrics m g) in
      v == K * d ∧ (0 < d ↔ 0 < v) ∧ (d < 0 ↔ v < 0) ∧ (d == 0 ↔ v == 0).
Proof.
  intros Hi.
  destruct (generated_cell_coefficient name g m i Hi)
    as (self & df & v & K & Hinit & Hgen & Hcell & HK & Hv).
  exists self, df, v, K. do 4 (split; [done|]). intros d.
  split; [done|]. fold d in Hv. rewrite Hv.
  repeat split; nra.
Qed.

(** [generated_cell_sign] for the first total revenue of "Eilat" with
    every noise factor equal to 1. *)
Lemma generated_cell_sign_witness :
  ∃ self df v,
    __init__ "Eilat" = Some self
    ∧ (generate_financial_data (G:=unit) self tt).1 = Some df
    ∧ cell df "Recettes_Totales" 0 = Some v
    ∧ 0 < v.
Proof.
  destruct (generated_cell_sign (G:=unit) "Eilat" tt Recettes_Totales 0)
    as (self & df & v & K & Hinit & Hgen & Hcell & HK & Hv & Hpos & _);
    [lia|].
  exists self, df, v. do 3 (split; [done|]).
  apply Hpos. injection Hinit as <-. reflexivity.
Defined.

(** ** The demographic columns *)

Lemma Population_not_adjustable : "Population" ∉ adjustable.
Proof. apply (bool_decide_unpack _). by vm_compute. Qed.

Lemma Menages_not_adjustable : "Menages" ∉ adjustable.
Proof. apply (bool_decide_unpack _). by vm_compute. Qed.

(** The returned table holds the population and the households as their
    simulators computed them. *)
Lemma generated_demography {G : Type} `{!NormalSource G} (self : Analyzer)
    (g : G) :
  ∃ df, (generate_financial_data self g).1 = Some df
    ∧ columns df !! "Population"
      = Some (_simulate_population self (dates_of self))
    ∧ columns df !! "Menages"
      = Some (_simulate_households self (dates_of self)).
Proof.
  destruct (generate_financial_data_Some self g) as (df & Hgen & Hdf).
  exists df. split; [done|]. unfold _add_israeli_trends in Hdf. split.
  - rewrite (iterrows_trends_columns _ _ _ _ _ Hdf Population_not_adjustable).
    unfold raw_frame. cbn [columns].
    change "Population" with (label Population).
    by rewrite financial_dict_metric.
  - rewrite (iterrows_trends_columns _ _ _ _ _ Hdf Menages_not_adjustable).
    unfold raw_frame. cbn [columns].
    change "Menages" with (label Menages).
    by rewrite financial_dict_metric.
Qed.

Lemma simulate_population_lookup self dates (i : nat) :
  _simulate_population self dates !! i
  = (λ _, inject_Z (population_base (config self))
          * (1 + population_growth_rate self * idx i)) <$> dates !! i.
Proof. unfold _simulate_population. by rewrite list_lookup_imap. Qed.





(** ** The budget as a scale *)

Section Budget.
Context {G : Type} `{!NormalSource G}.
Implicit Types (self : Analyzer) (g : G).



End Budget.



(** ** When the report raises *)

Lemma insights_is_Some_iff (self : Analyzer) (df : DataFrame) :
  is_Some (_generate_financial_insights self df)
  ↔ (∀ col, col ∈ report_columns → is_Some (columns df !! col))
    ∧ (∀ col, col ∈ report_endpoints → columns df !! col ≠ Some []).
Proof.
  unfold _generate_financial_insights, report_columns, report_endpoints.
  split.
  - intros [ins Hins].
    repeat match type of Hins with
    | (columns df !! ?col ≫= _) = Some _ =>
        let c := fresh "c" in let E := fresh "E" in
        destruct (columns df !! col) as [c|] eqn:E; [|done];
        cbn [mbind option_bind] in Hins
    | (last ?l ≫= _) = Some _ =>
        let E := fresh "E" in
        destruct (last l) eqn:E; [|done]; cbn [mbind option_bind] in Hins
    | (head ?l ≫= _) = Some _ =>
        let E := fresh "E" in
        destruct (head l) eqn:E; [|done]; cbn [mbind option_bind] in Hins
    end.
    split; intros col Hcol.
    + repeat (apply elem_of_cons in Hcol as [->|Hcol]; [by eauto|]).
      by apply elem_of_nil in Hcol.
    + repeat (apply elem_of_cons in Hcol as [->|Hcol];
              [intros Hnil; rewrite Hnil in *; by simplify_eq|]).
      by apply elem_of_nil in Hcol.
  - intros [Hcols Hends].
    repeat match goal with
    | |- is_Some (columns df !! ?col ≫= _) =>
        let c := fresh "c" in let E := fresh "E" in
        destruct (Hcols col) as [c E];
        [apply (bool_decide_unpack _); by vm_compute|];
        rewrite E; cbn [mbind option_bind]
    | |- is_Some (last ?l ≫= _) =>
        let x := fresh "x" in let E := fresh "E" in
        assert (is_Some (last l)) as [x E];
        [|rewrite E; cbn [mbind option_bind]]
    | |- is_Some (head ?l ≫= _) =>
        let x := fresh "x" in let E := fresh "E" in
        assert (is_Some (head l)) as [x E];
        [|rewrite E; cbn [mbind option_bind]]
    end; eauto.
    all: first [apply last_is_Some | apply head_is_Some]; intros ->.
    + by apply (Hends "Recettes_Totales");
        [apply (bool_decide_unpack _); vm_compute|].
    + by apply (Hends "Recettes_Totales");
        [apply (bool_decide_unpack _); vm_compute|].
    + by apply (Hends "Population");
        [apply (bool_decide_unpack _); vm_compute|].
    + by apply (Hends "Population");
        [apply (bool_decide_unpack _); vm_compute|].
    + by apply (Hends "Taux_Endettement");
        [apply (bool_decide_unpack _); vm_compute|].
Qed.

(** The report raises no [KeyError] and no [IndexError] exactly when the
    frame has the ten columns it reads and the three columns whose first
    or last value it takes are not empty.  So it raises on a frame that
    lacks one of the ten columns, and on a frame without rows. *)
Theorem generate_financial_insights_is_Some_iff (self : Analyzer)
    (df : DataFrame) :
  (is_Some (_generate_financial_insights self df)
   ↔ (∀ col, col ∈ report_columns → is_Some (columns df !! col))
     ∧ (∀ col, col ∈ report_endpoints → columns df !! col ≠ Some []))
  ∧ (∀ col, col ∈ report_columns → columns df !! col = None →
       _generate_financial_insights self df = None)
  ∧ (map_Forall (λ _ c, c = []) (columns df) →
       _generate_financial_insights self df = None).
Proof.
  split; [apply insights_is_Some_iff|]. split.
  - intros col Hcol Hnone. apply eq_None_not_Some. intros Hsome.
    destruct (proj1 (proj1 (insights_is_Some_iff self df) Hsome) col Hcol)
      as [c Hc].
    by rewrite Hnone in Hc.
  - intros Hempty. apply eq_None_not_Some. intros Hsome.
    destruct (proj1 (insights_is_Some_iff self df) Hsome) as [Hcols Hends].
    destruct (Hcols "Recettes_Totales") as [c Hc].
    { apply (bool_decide_unpack _). by vm_compute. }
    apply (Hends "Recettes_Totales").
    { apply (bool_decide_unpack _). by vm_compute. }
    by rewrite Hc, (Hempty _ _ Hc).
Qed.

(** ** The report of a generated table *)

(** The report, given the columns it reads and their end values. *)
Lemma insights_eq self df recettes depenses epargne dette population impots
    subventions investissement taux_endettement taux_fiscalite
    recettes_last recettes_first population_last population_first
    taux_endettement_last :
  columns df !! "Recettes_Totales" = Some recettes →
  columns df !! "Depenses_Totales" = Some depenses →
  columns df !! "Epargne_Brute" = Some epargne →
  columns df !! "Dette_Totale" = Some dette →
  columns df !! "Population" = Some population →
  columns df !! "Impots_Locaux" = Some impots →
  columns df !! "Subventions_Gouvernement" = Some subventions →
  columns df !! "Investissement" = Some investissement →
  columns df !! "Taux_Endettement" = Some taux_endettement →
  columns df !! "Taux_Fiscalite" = Some taux_fiscalite →
  last recettes = Some recettes_last →
  head recettes = Some recettes_first →
  last population = Some population_last →
  head population = Some population_first →
  last taux_endettement = Some taux_endettement_last →
  _generate_financial_insights self df
  = Some {|
      avg_revenue := mean recettes;
      avg_expenses := mean depenses;
      avg_savings := mean epargne;
      avg_debt := mean dette;
      revenue_growth :=
        fmul (fsub (fdiv (Some recettes_last) (Some recettes_first)) 1) 100;
      population_growth :=
        fmul (fsub (fdiv (Some population_last) (Some population_first)) 1)
          100;
      tax_share := fmul (fdiv (mean impots) (mean recettes)) 100;
      gov_share := fmul (fdiv (mean subventions) (mean recettes)) 100;
      investment_share :=
        fmul (fdiv (mean investissement) (mean depenses)) 100;
      avg_debt_ratio := fmul (mean taux_endettement) 100;
      avg_tax_rate := mean taux_fiscalite;
      last_debt_ratio := Some (taux_endettement_last * 100);
      recommendations := recommandations_strategiques self
    |}.
Proof.
  intros H1 H2 H3 H4 H5 H6 H7 H8 H9 H10 H11 H12 H13 H14 H15.
  unfold _generate_financial_insights.
  rewrite H1, H2, H3, H4. cbn [mbind option_bind].
  rewrite H11, H12. cbn [mbind option_bind].
  rewrite H5. cbn [mbind option_bind].
  rewrite H13, H14. cbn [mbind option_bind].
  rewrite H6, H7, H8, H9, H10. cbn [mbind option_bind].
  by rewrite H15.
Qed.

Lemma Qeq_bool_pos (x : Q) : 0 < x → Qeq_bool x 0 = false.
Proof.
  intros Hx. destruct (Qeq_bool x 0) eqn:E; [|done].
  apply Qeq_bool_eq in E. rewrite E in Hx. by apply Qlt_irrefl in Hx.
Qed.

Lemma fdiv_pos (x y : Q) :
  0 < x → 0 < y → ∃ z, fdiv (Some x) (Some y) = Some z ∧ 0 < z ∧ z == x / y.
Proof.
  intros Hx Hy. unfold fdiv. cbn [mbind option_bind].
  rewrite (Qeq_bool_pos y Hy). exists (x / y).
  split; [done|]. split; [|done].
  apply Qlt_shift_div_l; [done|]. by rewrite Qmult_0_l.
Qed.

Lemma total_pos (c : list Q) : c ≠ [] → Forall (λ v, 0 < v) c → 0 < total c.
Proof.
  intros Hne Hpos. destruct Hpos as [|x c Hx Hc]; [done|]. clear Hne.
  revert x Hx. induction Hc as [|y c Hy _ IH]; intros x Hx; simpl.
  - lra.
  - specialize (IH y Hy). simpl in IH. lra.
Qed.

Lemma mean_pos (c : list Q) :
  c ≠ [] → Forall (λ v, 0 < v) c → ∃ mu, mean c = Some mu ∧ 0 < mu.
Proof.
  intros Hne Hpos. pose proof (total_pos c Hne Hpos) as Ht.
  destruct c as [|x c]; [done|]. eexists. split; [done|].
  apply Qlt_shift_div_l; [|by rewrite Qmult_0_l].
  rewrite <- (Zlt_Qlt 0). cbn [length]. lia.
Qed.

Lemma report_columns_labels :
  Forall (λ col, col ∈ column_labels) report_columns.
Proof. apply (bool_decide_unpack _). by vm_compute. Qed.

Section GeneratedReport.
Context {G : Type} `{!NormalSource G}.
Implicit Types (self : Analyzer) (g : G).

(** A column of the generated table, with its length. *)
Lemma generated_column self g col :
  col ∈ column_labels →
  ∃ df c, (generate_financial_data self g).1 = Some df
    ∧ columns df !! col = Some c
    ∧ length c = length (dates_of self).
Proof.
  intros Hcol.
  destruct (generated_table self g) as (df & Hgen & _ & _ & Hdom & Hlen).
  assert (is_Some (columns df !! col)) as [c Hc].
  { apply (elem_of_dom (D:=gset string)). rewrite Hdom.
    by apply elem_of_list_to_set. }
  exists df, c. do 2 (split; [done|]). exact (Hlen col c Hc).
Qed.

(** The report never raises on a generated table with at least one row. *)
Lemma generated_insights_is_Some self g :
  dates_of self ≠ [] →
  ∃ df, (generate_financial_data self g).1 = Some df
    ∧ is_Some (_generate_financial_insights self df).
Proof.
  intros Hdates.
  destruct (generated_table self g) as (df & Hgen & _ & _ & Hdom & Hlen).
  exists df. split; [done|]. apply insights_is_Some_iff. split.
  - intros col Hcol. apply (elem_of_dom (D:=gset string)). rewrite Hdom.
    apply elem_of_list_to_set.
    pose proof report_columns_labels as Hlabels.
    rewrite Forall_forall in Hlabels. by apply Hlabels.
  - intros col _ Hc. apply Hdates, nil_length_inv.
    by rewrite <- (Hlen col [] Hc).
Qed.

End GeneratedReport.

(** The population growth figure of a report that was made. *)
Lemma insights_population_growth_eq self df ins population p0 p1 :
  _generate_financial_insights self df = Some ins →
  columns df !! "Population" = Some population →
  head population = Some p0 → last population = Some p1 →
  population_growth ins = fmul (fsub (fdiv (Some p1) (Some p0)) 1) 100.
Proof.
  unfold _generate_financial_insights. intros Hins Hpop Hp0 Hp1.
  rewrite Hpop in Hins.
  repeat match type of Hins with
  | (Some _ ≫= _) = Some _ => cbn [mbind option_bind] in Hins
  | (columns df !! ?col ≫= _) = Some _ =>
      destruct (columns df !! col); [|done]
  | (last population ≫= _) = Some _ => rewrite Hp1 in Hins
  | (head population ≫= _) = Some _ => rewrite Hp0 in Hins
  | (last ?l ≫= _) = Some _ => destruct (last l); [|done]
  | (head ?l ≫= _) = Some _ => destruct (head l); [|done]
  end.
  by injection Hins as <-.
Qed.

(** The population growth the report prints does not depend on the random
    source: it is 23 times the yearly rate of the profile's type, in
    percent, that is 41.4 for a capitale, 50.6 for a metropolitaine, 57.5
    for a touristique commune and 46 for any other. *)
Theorem insights_population_growth {G : Type} `{!NormalSource G}
    (name : string) (g : G) :
  ∃ self df ins pg,
    __init__ name = Some self
    ∧ (generate_financial_data self g).1 = Some df
    ∧ _generate_financial_insights self df = Some ins
    ∧ population_growth ins = Some pg
    ∧ pg == population_growth_rate self * 23 * 100
    ∧ pg == (if type_is self "capitale" then 41.4
             else if type_is self "metropolitaine" then 50.6
             else if type_is self "touristique" then 57.5
             else 46).
Proof.
  eexists. rewrite init_eq.
  destruct (resolved_config_positive name) as [HP _].
  rewrite (Zlt_Qlt 0) in HP.
  set (self := mkAnalyzer _ _ _ _ _).
  destruct (generated_insights_is_Some self g) as (df & Hgen & [ins Hins]);
    [done|].
  destruct (generated_demography self g) as (df' & Hgen' & Hpop & _).
  rewrite Hgen in Hgen'. injection Hgen' as <-.
  set (P := inject_Z (population_base (config self))) in *.
  set (r := population_growth_rate self).
  assert (head (_simulate_population self (dates_of self))
          = Some (P * (1 + r * idx 0))) as Hhead.
  { rewrite head_lookup, simulate_population_lookup. done. }
  assert (last (_simulate_population self (dates_of self))
          = Some (P * (1 + r * idx 23))) as Hlast.
  { rewrite last_lookup, simulate_population_lookup. done. }
  pose proof (insights_population_growth_eq _ _ _ _ _ _ Hins Hpop Hhead Hlast)
    as Hpg.
  pose proof (population_growth_rate_bounds self) as [Hr _]. fold r in Hr.
  change (0 < P) in HP.
  change (idx 0) with 0 in *. change (idx 23) with 23 in *.
  destruct (fdiv_pos (P * (1 + r * 23)) (P * (1 + r * 0)))
    as (z & Hz & _ & Hzeq); [nra|nra|].
  rewrite Hz in Hpg. cbn [fsub fmul fmap option_fmap option_map] in Hpg.
  exists df, ins, ((z - 1) * 100). do 4 (split; [done|]).
  assert ((z - 1) * 100 == r * 23 * 100) as Hval.
  { rewrite Hzeq. field. intros HP0. rewrite HP0 in HP.
    by apply Qlt_irrefl in HP. }
  split; [done|]. rewrite Hval. clear. subst r self.
  unfold population_growth_rate.
  repeat match goal with
  | |- context [type_is ?s ?t] => destruct (type_is s t)
  end; by vm_compute.
Qed.

(** ** Finite figures *)

Lemma noise_pos {G : Type} `{!NormalSource G} m (i : nat) (g : G) :
  (∀ sd g0, 0 < (normal 1 sd g0).1) → 0 < noise m i g.
Proof. intros Hpos. unfold noise. by destruct (noise_sd m). Qed.

(** With positive draws every value of a metric's column is positive. *)
Lemma generated_column_positive {G : Type} `{!NormalSource G}
    (name : string) (g : G) (m : Metric) :
  (∀ sd g0, 0 < (normal 1 sd g0).1) →
  ∃ self df c,
    __init__ name = Some self
    ∧ (generate_financial_data self g).1 = Some df
    ∧ columns df !! label m = Some c
    ∧ length c = 24%nat
    ∧ Forall (λ v, 0 < v) c.
Proof.
  intros Hpos. eexists. rewrite init_eq. set (self := mkAnalyzer _ _ _ _ _).
  destruct (generated_column self g (label m)) as (df & c & Hgen & Hc & Hlen).
  { right. apply list_elem_of_fmap. exists m. split; [done|].
    apply metrics_complete. }
  exists df, c. do 4 (split; [done|]).
  apply Forall_lookup. intros i v Hv.
  assert (i < 24)%nat as Hi.
  { apply lookup_lt_Some in Hv. by rewrite Hlen in Hv. }
  destruct (generated_cell_coefficient name g m i Hi)
    as (self' & df' & v' & K & Hinit & Hgen' & Hcell & HK & Heq).
  rewrite init_eq in Hinit. injection Hinit as <-.
  fold self in Hgen', Heq. rewrite Hgen in Hgen'. injection Hgen' as <-.
  unfold cell in Hcell. rewrite Hc in Hcell. cbn [mbind option_bind] in Hcell.
  rewrite Hv in Hcell. injection Hcell as <-.
  rewrite Heq. apply Qmult_lt_0_compat; [done|]. by apply noise_pos.
Qed.

Lemma last_Forall {A} (P : A → Prop) (l : list A) :
  l ≠ [] → Forall P l → ∃ x, last l = Some x ∧ P x.
Proof.
  intros Hne Hall. destruct (proj2 (last_is_Some l) Hne) as [x Hx].
  exists x. split; [done|]. rewrite Forall_forall in Hall.
  apply Hall. rewrite last_lookup in Hx. by eapply list_elem_of_lookup_2.
Qed.

Lemma head_Forall {A} (P : A → Prop) (l : list A) :
  l ≠ [] → Forall P l → ∃ x, head l = Some x ∧ P x.
Proof.
  intros Hne Hall. destruct l as [|x l]; [done|]. exists x. split; [done|].
  by apply Forall_cons in Hall as [? _].
Qed.

Lemma share_pos (a b : list Q) :
  a ≠ [] → b ≠ [] → Forall (λ v, 0 < v) a → Forall (λ v, 0 < v) b →
  ∃ z, fmul (fdiv (mean a) (mean b)) 100 = Some z ∧ 0 < z.
Proof.
  intros Ha Hb Hpa Hpb.
  destruct (mean_pos a Ha Hpa) as (x & -> & Hx).
  destruct (mean_pos b Hb Hpb) as (y & -> & Hy).
  destruct (fdiv_pos x y Hx Hy) as (z & -> & Hz & _).
  exists (z * 100). split; [done|]. lra.
Qed.

(** The first value of a generated column is positive and the growth
    figure computed from it is a number. *)
Lemma growth_figure (c : list Q) :
  c ≠ [] → Forall (λ v, 0 < v) c →
  ∃ x0 x1 z, head c = Some x0 ∧ last c = Some x1
    ∧ fmul (fsub (fdiv (Some x1) (Some x0)) 1) 100 = Some z.
Proof.
  intros Hne Hpos.
  destruct (head_Forall _ c Hne Hpos) as (x0 & Hx0 & Hp0).
  destruct (last_Forall _ c Hne Hpos) as (x1 & Hx1 & Hp1).
  destruct (fdiv_pos x1 x0 Hp1 Hp0) as (z & Hz & _).
  exists x0, x1, ((z - 1) * 100). do 2 (split; [done|]). by rewrite Hz.
Qed.

(** With positive draws every figure of the report is a number (no [nan],
    no [inf]), and the means and the shares are positive. *)
Theorem insights_finite {G : Type} `{!NormalSource G} (name : string)
    (g : G) :
  (∀ sd g0, 0 < (normal 1 sd g0).1) →
  ∃ self df ins,
    __init__ name = Some self
    ∧ (generate_financial_data self g).1 = Some df
    ∧ _generate_financial_insights self df = Some ins
    ∧ Forall (λ f : Figure, ∃ x, f = Some x ∧ 0 < x)
        [ avg_revenue ins; avg_expenses ins; avg_savings ins; avg_debt ins;
          tax_share ins; gov_share ins; investment_share ins;
          avg_debt_ratio ins; avg_tax_rate ins; last_debt_ratio ins ]
    ∧ is_Some (revenue_growth ins)
    ∧ is_Some (population_growth ins).
Proof.
  intros Hpos.
  destruct (generated_column_positive name g Recettes_Totales Hpos)
    as (self & df & recettes & Hinit & Hgen & Hrec & Hlrec & Hprec).
  assert (Hcol : ∀ m, ∃ c, columns df !! label m = Some c
                        ∧ c ≠ [] ∧ Forall (λ v, 0 < v) c).
  { intros m.
    destruct (generated_column_positive name g m Hpos)
      as (self' & df' & c & Hinit' & Hgen' & Hc & Hlen & Hpc).
    rewrite Hinit in Hinit'. injection Hinit' as <-.
    rewrite Hgen in Hgen'. injection Hgen' as <-.
    exists c. split; [done|]. split; [|done]. by intros ->. }
  destruct (Hcol Recettes_Totales) as (rec & Hrec' & Hnrec & Hp_rec).
  destruct (Hcol Depenses_Totales) as (dep & Hdep & Hndep & Hp_dep).
  destruct (Hcol Epargne_Brute) as (epa & Hepa & Hnepa & Hp_epa).
  destruct (Hcol Dette_Totale) as (det & Hdet & Hndet & Hp_det).
  destruct (Hcol Population) as (pop & Hpop & Hnpop & Hp_pop).
  destruct (Hcol Impots_Locaux) as (imp & Himp & Hnimp & Hp_imp).
  destruct (Hcol Subventions_Gouvernement) as (sub & Hsub & Hnsub & Hp_sub).
  destruct (Hcol Investissement) as (inv & Hinv & Hninv & Hp_inv).
  destruct (Hcol Taux_Endettement) as (te & Hte & Hnte & Hp_te).
  destruct (Hcol Taux_Fiscalite) as (tf & Htf & Hntf & Hp_tf).
  destruct (growth_figure rec Hnrec Hp_rec) as (r0 & r1 & zr & Hr0 & Hr1 & Hzr).
  destruct (growth_figure pop Hnpop Hp_pop) as (p0 & p1 & zp & Hp0 & Hp1 & Hzp).
  destruct (last_Forall _ te Hnte Hp_te) as (tel & Htel & Hp_tel).
  exists self, df. eexists. do 2 (split; [done|]).
  split.
  { exact (insights_eq self df rec dep epa det pop imp sub inv te tf
             r1 r0 p1 p0 tel Hrec' Hdep Hepa Hdet Hpop Himp Hsub Hinv Hte Htf
             Hr1 Hr0 Hp1 Hp0 Htel). }
  cbn [avg_revenue avg_expenses avg_savings avg_debt tax_share gov_share
       investment_share avg_debt_ratio avg_tax_rate last_debt_ratio
       revenue_growth population_growth].
  split; [|by rewrite Hzr, Hzp].
  repeat apply Forall_cons_2; try apply Forall_nil_2;
    try (by apply mean_pos); try (by apply share_pos).
  - destruct (mean_pos te Hnte Hp_te) as (mu & -> & Hmu).
    exists (mu * 100). split; [done|]. lra.
  - exists (tel * 100). split; [done|]. lra.
Qed.

(** [insights_finite] for the source whose samples are the mean. *)
Lemma insights_finite_witness :
  ∃ self df ins,
    __init__ "Eilat" = Some self
    ∧ (generate_financial_data (G:=unit) self tt).1 = Some df
    ∧ _generate_financial_insights self df = Some ins
    ∧ is_Some (revenue_growth ins)
    ∧ is_Some (tax_share ins).
Proof.
  destruct (insights_finite (G:=unit) "Eilat" tt)
    as (self & df & ins & Hinit & Hgen & Hins & Hall & Hrg & _).
  { intros sd g0. reflexivity. }
  exists self, df, ins. do 4 (split; [done|]).
  apply Forall_cons in Hall as [_ Hall]. apply Forall_cons in Hall as [_ Hall].
  apply Forall_cons in Hall as [_ Hall]. apply Forall_cons in Hall as [_ Hall].
  apply Forall_cons in Hall as [(x & -> & _) _]. eauto.
Defined.

(** ** The entry point *)

Lemma commune_selectionnee_in_menu (choix : option Z) :
  commune_selectionnee choix ∈ communes.
Proof.
  unfold commune_selectionnee.
  destruct choix as [c|]; cbn [mbind option_bind default];
    [|apply (bool_decide_unpack _); by vm_compute].
  case_bool_decide; cbn [default];
    [apply (bool_decide_unpack _); by vm_compute|].
  destruct (communes !! Z.to_nat (c - 1)) as [x|] eqn:E; cbn [default].
  - by eapply list_elem_of_lookup_2.
  - apply (bool_decide_unpack _). by vm_compute.
Qed.

(** [main] never raises: whatever is typed at the prompt and whatever the
    state of the random source, a commune of the menu is selected, its
    table of 24 rows is generated and the report is made. *)
Theorem main_never_raises {G : Type} `{!NormalSource G} (choix : option Z)
    (g : G) :
  ∃ r self df ins,
    (main choix g).1 = Some r
    ∧ selected r = commune_selectionnee choix
    ∧ selected r ∈ communes
    ∧ __init__ (selected r) = Some self
    ∧ financial_data r = Some df
    ∧ (generate_financial_data self g).1 = Some df
    ∧ nrows df = 24%nat
    ∧ insights r = Some ins
    ∧ _generate_financial_insights self df = Some ins.
Proof.
  unfold main. rewrite init_eq. set (self := mkAnalyzer _ _ _ _ _).
  destruct (generated_insights_is_Some self g) as (df & Hgen & [ins Hins]);
    [done|].
  destruct (generated_table self g) as (df' & Hgen' & Hrows & _).
  rewrite Hgen in Hgen'. injection Hgen' as <-.
  destruct (generate_financial_data self g) as [data g'] eqn:E.
  simpl in Hgen. subst data.
  eexists. exists self, df, ins. cbn [fst selected financial_data insights].
  split; [done|]. split; [done|].
  split; [apply commune_selectionnee_in_menu|].
  split; [by rewrite init_eq|]. split; [done|].
  split; [by rewrite E|]. split; [done|].
  cbn [mbind option_bind]. by split.
Qed.

(** ** The menu and the profile table *)

(** The menu offers 22 communes but the table has a profile for the first
    twelve only: a choice from 13 to 22 silently gets the default profile,
    and every other input (a number outside the menu, or text that is not
    a number, which both select "Tel Aviv-Jaffa") gets a profile of its
    own. *)
Theorem menu_default_profile (choix : option Z) :
  commune_selectionnee choix ∈ communes
  ∧ (_get_commune_config (commune_selectionnee choix) = Some default_config
     ↔ ∃ c, choix = Some c ∧ (13 ≤ c ≤ 22)%Z)
  ∧ ((∀ c, choix = Some c → (c < 1 ∨ 22 < c)%Z) →
       commune_selectionnee choix = "Tel Aviv-Jaffa").
Proof.
  split; [apply commune_selectionnee_in_menu|]. split.
  - destruct choix as [c|].
    + destruct (decide (c < 1 ∨ c > 22)%Z) as [Hout|Hin].
      * unfold commune_selectionnee. cbn [mbind option_bind].
        rewrite bool_decide_eq_true_2 by done. split; [done|].
        intros (c' & [= <-] & Hc). lia.
      * assert (c = 1 ∨ c = 2 ∨ c = 3 ∨ c = 4 ∨ c = 5 ∨ c = 6 ∨ c = 7
                ∨ c = 8 ∨ c = 9 ∨ c = 10 ∨ c = 11 ∨ c = 12 ∨ c = 13
                ∨ c = 14 ∨ c = 15 ∨ c = 16 ∨ c = 17 ∨ c = 18 ∨ c = 19
                ∨ c = 20 ∨ c = 21 ∨ c = 22)%Z as Hc by lia.
        repeat destruct Hc as [->|Hc]; try subst c;
          (split; [intros Hcfg; first [done | eexists; split; [done|lia]]
                  |intros (c' & [= <-] & Hc');
                   first [reflexivity | exfalso; lia]]).
    + split; [done|]. by intros (c & Hc & _).
  - intros Hout. destruct choix as [c|]; [|done].
    unfold commune_selectionnee. cbn [mbind option_bind].
    rewrite bool_decide_eq_true_2; [done|].
    destruct (Hout c eq_refl); [left|right]; simpl; lia.
Qed.

Lemma configs_lookup_Some (name : string) (cfg : Config) :
  configs !! name = Some cfg →
  name ∈ [ "Jérusalem"; "Tel Aviv-Jaffa"; "Haïfa"; "Beer-Sheva"; "Netanya";
           "Ashdod"; "Rishon LeZion"; "Petah Tikva"; "Eilat"; "Tiberiade";
           "Nahariya"; "Safed"; "default" ].
Proof.
  intros Hcfg. unfold configs in Hcfg.
  apply elem_of_list_to_map_2 in Hcfg.
  repeat (apply elem_of_cons in Hcfg as [[= -> _]|Hcfg];
          [apply (bool_decide_unpack _); by vm_compute|]).
  by apply elem_of_nil in Hcfg.
Qed.

(** The report and the simulator disagree on who needs security: the two
    security recommendations are printed for "Jérusalem" only (no profile
    has the tag "sécurité" or the type "frontaliere"), while the security
    investment gets its multiplier 1.6 for "Jérusalem" and for
    "Tel Aviv-Jaffa". *)
Theorem security_recommendation (name : string) :
  ∃ self,
    __init__ name = Some self
    ∧ ("sécurité" ∉ specialites (config self))
    ∧ ("frontaliere" ∉ specialites (config self))
    ∧ type (config self) ≠ "frontaliere"
    ∧ ("• Moderniser les infrastructures de sécurité"
         ∈ recommandations_strategiques self
       ↔ name = "Jérusalem")
    ∧ (Qeq_bool (security_multiplier self) 1.6 = true
       ↔ name = "Jérusalem" ∨ name = "Tel Aviv-Jaffa")
    ∧ (4 ≤ length (recommandations_strategiques self) ≤ 8)%nat.
Proof.
  eexists. rewrite init_eq. split; [done|].
  destruct (configs !! name) as [cfg|] eqn:Hcfg.
  - pose proof (configs_lookup_Some name cfg Hcfg) as Hname.
    rewrite <- Hcfg. clear Hcfg cfg.
    repeat (apply elem_of_cons in Hname as [->|Hname];
            [solve [repeat split;
                    try (apply (bool_decide_unpack _); by vm_compute)]|]).
    by apply elem_of_nil in Hname.
  - assert (name ≠ "Jérusalem" ∧ name ≠ "Tel Aviv-Jaffa") as [H1 H2].
    { split; intros ->; by vm_compute in Hcfg. }
    cbn [default config].
    repeat split; try (apply (bool_decide_unpack _); by vm_compute);
      try done.
    by intros [?|?].
Qed.

(** ** The budget of the first year *)




